(** * The socket core of the scalability-protocols library (src/core/sock.c)

    The functions of [sock.c] talk to three collaborators that live in other
    files: the asynchronous dispatcher ([sp_aio_*]), the condition variable
    ([sp_cond_*]) and the virtual-function table of the bound pattern
    ([sockbase->vfptr->...]).  Every such call is an event of an interaction
    tree; [sp_sock_send] and [sp_sock_recv], which loop with [while (1)],
    are built with [ITree.iter].  A fuel-bounded runner executes a tree
    against a script of the integer results that the collaborators give, and
    logs the calls in order. *)

From Stdlib Require Import ZArith List Bool Lia.
From ITree Require Import ITree Eq.Shallow.
Import ListNotations.
Import ITreeNotations.
Local Open Scope Z_scope.
Local Open Scope itree_scope.

(** ** Calls that leave [sock.c] *)

(** Pointers are addresses; [int] and [size_t] values are integers. *)
Variant sockE : Type -> Type :=
(* the dispatcher, aio.h *)
| Aio_term (aio : Z) : sockE unit
| Aio_lock (aio : Z) : sockE unit
| Aio_unlock (aio : Z) : sockE unit
| Aio_post (aio event hndl : Z) : sockE unit
(* the condition variable, cond.h *)
| Cond_term (cond : Z) : sockE unit
| Cond_wait (cond aio timeout : Z) : sockE Z
| Cond_post (cond : Z) : sockE unit
(* the pattern's virtual functions, struct sp_sockbase_vfptr *)
| V_term (sockbase : Z) : sockE unit
| V_setopt (sockbase option optval optvallen : Z) : sockE Z
| V_getopt (sockbase option optval optvallen : Z) : sockE Z
| V_send (sockbase buf len : Z) : sockE Z
| V_recv (sockbase buf len : Z) : sockE Z
| V_add (sockbase pipe : Z) : sockE Z
| V_rm (sockbase pipe : Z) : sockE unit
| V_in (sockbase pipe : Z) : sockE Z
| V_out (sockbase pipe : Z) : sockE Z
| V_timeout (sockbase hndl : Z) : sockE unit
(* a failed assertion: the process is aborted, nothing comes back *)
| Abort : sockE void.

(** Modelled from the spec: the assertion macros of utils/err.h, which are
    not in [sock.c].  A failed assertion is fatal: it aborts, it does not
    return.  [errnum_assert] takes the error number only to print it. *)
Definition sp_assert (x : bool) : itree sockE unit :=
  if x then Ret tt
  else v <- ITree.trigger Abort;; match v : void with end.

Definition errnum_assert (cond : bool) (err : Z) : itree sockE unit :=
  sp_assert cond.

(** Modelled from the spec: the back-reference macro of utils/cont.h, which
    recovers the address of an outer struct from the address of one of its
    fields; [member] is the offset of the field. *)
Definition sp_cont (ptr member : Z) : Z := ptr - member.

(** The branch hints of utils/fast.h do not change the condition. *)
Definition sp_fast (x : bool) : bool := x.
Definition sp_slow (x : bool) : bool := x.

Definition SP_SOCK_EVENT_IN : Z := 1.
Definition SP_SOCK_EVENT_OUT : Z := 2.

(** The two operations that follow the blocking-retry protocol. *)
Variant direction : Type := Sending | Receiving.

Section Sock.

(** Constants of headers that are not part of [sock.c]: two error numbers
    of errno.h, the option level and the send/recv flag of sp.h, and the
    offsets of the fields [aio] and [cond] in [struct sp_sockbase] and of
    [inevent] and [outevent] in [struct sp_pipebase]. *)
Variables EAGAIN ENOPROTOOPT SP_SOL_SOCKET SP_DONTWAIT : Z.
Variables aio_off cond_off inevent_off outevent_off : Z.

Definition sp_sock_term (self : Z) : itree sockE unit :=
  let sockbase := self in
  (* Terminate the derived class. *)
  ITree.trigger (V_term sockbase);;
  (* Terminate the sp_sockbase itself. *)
  ITree.trigger (Cond_term (sockbase + cond_off));;
  ITree.trigger (Aio_term (sockbase + aio_off)).

Definition sp_sock_setopt (self level option optval optvallen : Z)
  : itree sockE Z :=
  let sockbase := self in
  let not_found :=
    (* Socket option not found. *)
    ITree.trigger (Aio_unlock (sockbase + aio_off));;
    Ret (- ENOPROTOOPT) in
  ITree.trigger (Aio_lock (sockbase + aio_off));;
  (* Unknown options may be pattern-specific. *)
  if level =? SP_SOL_SOCKET then
    rc <- ITree.trigger (V_setopt sockbase option optval optvallen);;
    if negb (rc =? - ENOPROTOOPT) then
      ITree.trigger (Aio_unlock (sockbase + aio_off));;
      Ret rc
    else not_found
  else not_found.

Definition sp_sock_getopt (self level option optval optvallen : Z)
  : itree sockE Z :=
  let sockbase := self in
  let not_found :=
    (* Socket option not found. *)
    ITree.trigger (Aio_unlock (sockbase + aio_off));;
    Ret (- ENOPROTOOPT) in
  ITree.trigger (Aio_lock (sockbase + aio_off));;
  (* Unknown options may be pattern-specific. *)
  if level =? SP_SOL_SOCKET then
    rc <- ITree.trigger (V_getopt sockbase option optval optvallen);;
    if negb (rc =? - ENOPROTOOPT) then
      ITree.trigger (Aio_unlock (sockbase + aio_off));;
      Ret rc
    else not_found
  else not_found.

(** One turn of the [while (1)] of [sp_sock_send]: [inr rc] is
    [return rc], [inl tt] is the jump back to the top of the loop. *)
Definition sp_sock_send_body (sockbase buf len flags : Z) (_ : unit)
  : itree sockE (unit + Z) :=
  (* Try to send the message in a non-blocking way. *)
  rc <- ITree.trigger (V_send sockbase buf len);;
  if sp_fast (rc =? 0) then
    ITree.trigger (Aio_unlock (sockbase + aio_off));;
    Ret (inr 0)
  (* Any unexpected error is forwarded to the caller. *)
  else if sp_slow (negb (rc =? - EAGAIN)) then
    ITree.trigger (Aio_unlock (sockbase + aio_off));;
    Ret (inr rc)
  (* If the message cannot be sent at the moment and the send call
     is non-blocking, return immediately. *)
  else if sp_fast (negb (Z.land flags SP_DONTWAIT =? 0)) then
    ITree.trigger (Aio_unlock (sockbase + aio_off));;
    Ret (inr (- EAGAIN))
  else
    (* With blocking send, wait while there are new pipes available
       for sending. *)
    rc <- ITree.trigger
            (Cond_wait (sockbase + cond_off) (sockbase + aio_off) (-1));;
    errnum_assert (rc =? 0) rc;;
    Ret (inl tt).

Definition sp_sock_send (self buf len flags : Z) : itree sockE Z :=
  let sockbase := self in
  ITree.trigger (Aio_lock (sockbase + aio_off));;
  ITree.iter (sp_sock_send_body sockbase buf len flags) tt.

Definition sp_sock_recv_body (sockbase buf len flags : Z) (_ : unit)
  : itree sockE (unit + Z) :=
  (* Try to receive the message in a non-blocking way. *)
  rc <- ITree.trigger (V_recv sockbase buf len);;
  if sp_fast (rc =? 0) then
    ITree.trigger (Aio_unlock (sockbase + aio_off));;
    Ret (inr 0)
  (* Any unexpected error is forwarded to the caller. *)
  else if sp_slow (negb (rc =? - EAGAIN)) then
    ITree.trigger (Aio_unlock (sockbase + aio_off));;
    Ret (inr rc)
  (* If the message cannot be received at the moment and the recv call
     is non-blocking, return immediately. *)
  else if sp_fast (negb (Z.land flags SP_DONTWAIT =? 0)) then
    ITree.trigger (Aio_unlock (sockbase + aio_off));;
    Ret (inr (- EAGAIN))
  else
    (* With blocking recv, wait while there are new pipes available
       for receiving. *)
    rc <- ITree.trigger
            (Cond_wait (sockbase + cond_off) (sockbase + aio_off) (-1));;
    errnum_assert (rc =? 0) rc;;
    Ret (inl tt).

Definition sp_sock_recv (self buf len flags : Z) : itree sockE Z :=
  let sockbase := self in
  ITree.trigger (Aio_lock (sockbase + aio_off));;
  ITree.iter (sp_sock_recv_body sockbase buf len flags) tt.

Definition sp_sock_add (self pipe : Z) : itree sockE Z :=
  (* Forward the call to the specific socket type. *)
  let sockbase := self in
  ITree.trigger (V_add sockbase pipe).

Definition sp_sock_rm (self pipe : Z) : itree sockE unit :=
  (* Forward the call to the specific socket type. *)
  let sockbase := self in
  ITree.trigger (V_rm sockbase pipe).

Definition sp_sock_in (self pipe : Z) : itree sockE unit :=
  ITree.trigger (Aio_post (self + aio_off) SP_SOCK_EVENT_IN
                   (pipe + inevent_off)).

Definition sp_sock_out (self pipe : Z) : itree sockE unit :=
  ITree.trigger (Aio_post (self + aio_off) SP_SOCK_EVENT_OUT
                   (pipe + outevent_off)).

Definition sp_sock_io (self event hndl : Z) : itree sockE unit :=
  sp_assert false.

Definition sp_sock_event (self event hndl : Z) : itree sockE unit :=
  let sockbase := sp_cont self aio_off in
  if event =? SP_SOCK_EVENT_IN then
    let pipebase := sp_cont hndl inevent_off in
    rc <- ITree.trigger (V_in sockbase pipebase);;
    errnum_assert (0 <=? rc) (- rc);;
    if rc =? 1 then ITree.trigger (Cond_post (sockbase + cond_off))
    else Ret tt
  else if event =? SP_SOCK_EVENT_OUT then
    let pipebase := sp_cont hndl outevent_off in
    rc <- ITree.trigger (V_out sockbase pipebase);;
    errnum_assert (0 <=? rc) (- rc);;
    if rc =? 1 then ITree.trigger (Cond_post (sockbase + cond_off))
    else Ret tt
  else
    sp_assert false.

Definition sp_sock_timeout (self hndl : Z) : itree sockE unit :=
  let sockbase := sp_cont self aio_off in
  ITree.trigger (V_timeout sockbase hndl).

(** The blocking-retry protocol as the specification words it, steps 1
    to 6, with the pattern hook as its only parameter. *)
Definition nb_hook (d : direction) (sockbase buf len : Z) : sockE Z :=
  match d with
  | Sending => V_send sockbase buf len
  | Receiving => V_recv sockbase buf len
  end.

Definition retry_body (d : direction) (sockbase buf len flags : Z) (_ : unit)
  : itree sockE (unit + Z) :=
  (* 2. Invoke the corresponding non-blocking pattern hook. *)
  rc <- ITree.trigger (nb_hook d sockbase buf len);;
  (* 3. Success: release the critical section and return success. *)
  if rc =? 0 then
    ITree.trigger (Aio_unlock (sockbase + aio_off));;
    Ret (inr 0)
  (* 4. A failure other than would-block: release and propagate it. *)
  else if negb (rc =? - EAGAIN) then
    ITree.trigger (Aio_unlock (sockbase + aio_off));;
    Ret (inr rc)
  (* 5. Would-block and a non-blocking caller: release and fail. *)
  else if negb (Z.land flags SP_DONTWAIT =? 0) then
    ITree.trigger (Aio_unlock (sockbase + aio_off));;
    Ret (inr (- EAGAIN))
  (* 6. Otherwise wait on the monitor without timeout, then go to 2. *)
  else
    rc <- ITree.trigger
            (Cond_wait (sockbase + cond_off) (sockbase + aio_off) (-1));;
    errnum_assert (rc =? 0) rc;;
    Ret (inl tt).

Definition blocking_retry (d : direction) (self buf len flags : Z)
  : itree sockE Z :=
  (* 1. Acquire the critical section. *)
  ITree.trigger (Aio_lock (self + aio_off));;
  ITree.iter (retry_body d self buf len flags) tt.

End Sock.

(** ** Construction, the handle and the timers

    The remaining functions of [sock.c] write and read the plain fields of
    [struct sp_sockbase] and call the dispatcher and the condition variable
    to initialise them and to arm timers. *)

(** The table of callbacks that [sock.c] hands to the dispatcher: the
    three function pointers of [struct sp_aio_vfptr], in the order of the
    initialiser of [sp_sock_aio_vfptr]. *)
Record sp_aio_vfptr : Type := {
  on_io : Z -> Z -> Z -> itree sockE unit;
  on_event : Z -> Z -> Z -> itree sockE unit;
  on_timeout : Z -> Z -> itree sockE unit
}.

Variant baseE : Type -> Type :=
(* a field of the socket is written, or read *)
| Store (addr val : Z) : baseE unit
| Load (addr : Z) : baseE Z
(* the dispatcher, aio.h *)
| Aio_init (aio : Z) (vfptr : sp_aio_vfptr) : baseE unit
| Aio_add_timer (aio timeout hndl : Z) : baseE unit
| Aio_rm_timer (aio hndl : Z) : baseE unit
(* the condition variable, cond.h *)
| Cond_init (cond : Z) : baseE unit.

Section SockBase.

(** Offsets of the fields of [struct sp_sockbase] and [struct sp_pipebase],
    which sock.h and pipe.h declare. *)
Variables aio_off cond_off inevent_off outevent_off : Z.
Variables vfptr_off fd_off : Z.

Definition sp_sock_aio_vfptr : sp_aio_vfptr := {|
  on_io := sp_sock_io;
  on_event := sp_sock_event aio_off cond_off inevent_off outevent_off;
  on_timeout := sp_sock_timeout aio_off
|}.

Definition sp_sockbase_init (self vfptr fd : Z) : itree baseE unit :=
  ITree.trigger (Store (self + vfptr_off) vfptr);;
  ITree.trigger (Aio_init (self + aio_off) sp_sock_aio_vfptr);;
  ITree.trigger (Cond_init (self + cond_off));;
  ITree.trigger (Store (self + fd_off) fd).

Definition sp_sock_fd (self : Z) : itree baseE Z :=
  let sockbase := self in
  ITree.trigger (Load (sockbase + fd_off)).

Definition sp_sockbase_add_timer (self timeout hndl : Z) : itree baseE unit :=
  ITree.trigger (Aio_add_timer (self + aio_off) timeout hndl).

Definition sp_sockbase_rm_timer (self hndl : Z) : itree baseE unit :=
  ITree.trigger (Aio_rm_timer (self + aio_off) hndl).

End SockBase.

(** ** Running a tree against its collaborators *)

(** One line of the log: a call with what came back, or the call the
    thread is still inside when the script ends. *)
Inductive entry : Type :=
| Call {T : Type} (e : sockE T) (r : T)
| Pending {T : Type} (e : sockE T).

Inductive outcome (R : Type) : Type :=
| Returned (r : R)      (* the function returned [r] *)
| Aborted               (* an assertion failed *)
| Suspended             (* the script has no answer left: the call in
                           progress never comes back *)
| Running.              (* out of fuel *)
Arguments Returned {R} r.
Arguments Aborted {R}.
Arguments Suspended {R}.
Arguments Running {R}.

Variant response (T : Type) : Type :=
| Answer (x : T) (rest : list Z)
| NoAnswer
| Fatal.
Arguments Answer {T} x rest.
Arguments NoAnswer {T}.
Arguments Fatal {T}.

Definition next (script : list Z) : response Z :=
  match script with
  | [] => NoAnswer
  | z :: rest => Answer z rest
  end.

(** Calls that give an [int] take the next number of the script; calls
    that give nothing leave the script alone. *)
Definition respond {T} (e : sockE T) (script : list Z) : response T :=
  match e in sockE T return response T with
  | Cond_wait _ _ _ => next script
  | V_setopt _ _ _ _ => next script
  | V_getopt _ _ _ _ => next script
  | V_send _ _ _ => next script
  | V_recv _ _ _ => next script
  | V_add _ _ => next script
  | V_in _ _ => next script
  | V_out _ _ => next script
  | Abort => Fatal
  | Aio_term _ | Aio_lock _ | Aio_unlock _ | Aio_post _ _ _
  | Cond_term _ | Cond_post _
  | V_term _ | V_rm _ _ | V_timeout _ _ => Answer tt script
  end.

Definition logged {R} (c : entry) (p : list entry * outcome R)
  : list entry * outcome R :=
  (c :: fst p, snd p).

Fixpoint run {R} (fuel : nat) (t : itree sockE R) (script : list Z)
  : list entry * outcome R :=
  match fuel with
  | O => ([], Running)
  | S fuel' =>
      match observe t with
      | RetF r => ([], Returned r)
      | TauF t' => run fuel' t' script
      | VisF e k =>
          match respond e script with
          | Answer x rest => logged (Call e x) (run fuel' (k x) rest)
          | NoAnswer => ([Pending e], Suspended)
          | Fatal => ([], Aborted)
          end
      end
  end.

(** ** Reading a log *)

(** Calls of the pattern's virtual functions. *)
Definition hook_event {T} (e : sockE T) : bool :=
  match e with
  | V_term _ | V_setopt _ _ _ _ | V_getopt _ _ _ _ | V_send _ _ _
  | V_recv _ _ _ | V_add _ _ | V_rm _ _ | V_in _ _ | V_out _ _
  | V_timeout _ _ => true
  | _ => false
  end.

Definition is_hook (c : entry) : bool :=
  match c with
  | Call e _ => hook_event e
  | Pending e => hook_event e
  end.

Definition pattern_calls (log : list entry) : list entry :=
  filter is_hook log.

Definition is_lock (aio : Z) (c : entry) : bool :=
  match c with
  | Call e _ => match e with Aio_lock a => a =? aio | _ => false end
  | Pending _ => false
  end.

Definition is_unlock (aio : Z) (c : entry) : bool :=
  match c with
  | Call e _ => match e with Aio_unlock a => a =? aio | _ => false end
  | Pending _ => false
  end.

Definition is_post (cond : Z) (c : entry) : bool :=
  match c with
  | Call e _ => match e with Cond_post a => a =? cond | _ => false end
  | Pending _ => false
  end.





(** Modelled from the spec: the mutex of [sp_aio_lock], [sp_aio_unlock]
    and [sp_cond_wait], none of which is in [sock.c], read strictly: locking
    a held mutex, unlocking a free one and waiting without the mutex are
    misuse ([None]); otherwise the result is whether the mutex is held after
    the entry. *)
Definition mutex_step (aio : Z) (held : bool) (c : entry) : option bool :=
  match c with
  | Call e _ =>
      match e with
      | Aio_lock a =>
          if a =? aio then if held then None else Some true else Some held
      | Aio_unlock a =>
          if a =? aio then if held then Some false else None else Some held
      | Cond_wait _ a _ =>
          if a =? aio then if held then Some true else None else Some held
      | _ => Some held
      end
  | Pending e =>
      match e with
      | Cond_wait _ a _ =>
          if a =? aio then if held then Some false else None else Some held
      | _ => Some held
      end
  end.

Fixpoint mutex (aio : Z) (held : bool) (log : list entry) : option bool :=
  match log with
  | [] => Some held
  | c :: log' =>
      match mutex_step aio held c with
      | Some held' => mutex aio held' log'
      | None => None
      end
  end.

Definition count_lock (aio : Z) (log : list entry) : nat :=
  length (filter (is_lock aio) log).

Definition count_unlock (aio : Z) (log : list entry) : nat :=
  length (filter (is_unlock aio) log).

(** A log that starts with the mutex held and gives it back: it unlocks
    once, locks nothing, and ends with the mutex free. *)
Definition released (aio : Z) (log : list entry) : Prop :=
  mutex aio true log = Some false
  /\ count_lock aio log = 0%nat /\ count_unlock aio log = 1%nat.

(** A log that starts with the mutex free and is balanced: one lock, one
    unlock, no misuse, and the mutex free at the end. *)
Definition balanced (aio : Z) (log : list entry) : Prop :=
  mutex aio false log = Some false
  /\ count_lock aio log = 1%nat /\ count_unlock aio log = 1%nat.

(** The log of a receive that took the steps of a send: the send hook
    renamed to the receive hook, everything else as it is. *)
Definition recv_of {T} (e : sockE T) : sockE T :=
  match e in sockE T return sockE T with
  | V_send s b l => V_recv s b l
  | e' => e'
  end.

Definition relabel_entry (c : entry) : entry :=
  match c with
  | Call e r => Call (recv_of e) r
  | Pending e => Pending (recv_of e)
  end.

Definition relabel {R} (p : list entry * outcome R) : list entry * outcome R :=
  (map relabel_entry (fst p), snd p).

(** The run of the retry loop spelled out turn by turn, for a loop that
    calls [hook], unlocks with the entry [unlock] and waits with [wait];
    [run_retry_loop] below shows that the loops of [sp_sock_send] and
    [sp_sock_recv] run like this. *)
Definition finish (unlock : entry) (fuel : nat) (r : Z)
  : list entry * outcome Z :=
  match fuel with
  | O => ([], Running)
  | S O => ([unlock], Running)
  | S (S _) => ([unlock], Returned r)
  end.

Fixpoint retry_run (eagain dontwait : Z) (hook wait : sockE Z)
  (unlock : entry) (flags : Z) (fuel : nat) (script : list Z)
  : list entry * outcome Z :=
  match fuel, script with
  | O, _ => ([], Running)
  | S _, [] => ([Pending hook], Suspended)
  | S n, rc :: s =>
      logged (Call hook rc)
        (if rc =? 0 then finish unlock n 0
         else if negb (rc =? - eagain) then finish unlock n rc
         else if negb (Z.land flags dontwait =? 0)
              then finish unlock n (- eagain)
         else
           match n, s with
           | O, _ => ([], Running)
           | S _, [] => ([Pending wait], Suspended)
           | S n1, w :: s' =>
               logged (Call wait w)
                 match n1 with
                 | O => ([], Running)
                 | S n2 =>
                     if w =? 0
                     then retry_run eagain dontwait hook wait unlock flags n2 s'
                     else ([], Aborted)
                 end
           end)
  end.

(** ** Running the construction functions *)

(** Memory: what is stored at each address. *)
Definition mem : Type := Z -> Z.

Definition store (m : mem) (addr val : Z) : mem :=
  fun a => if a =? addr then val else m a.

Inductive base_entry : Type :=
| Did {T : Type} (e : baseE T).

(** A write changes the memory and a read gives what is stored.  What the
    dispatcher and the condition variable do to the memory when they are
    handed the object at [obj] is not known here: it is [clobber obj]. *)
Definition perform {T} (clobber : Z -> mem -> mem) (e : baseE T) (m : mem)
  : T * mem :=
  match e in baseE T return T * mem with
  | Store addr val => (tt, store m addr val)
  | Load addr => (m addr, m)
  | Aio_init aio _ => (tt, clobber aio m)
  | Aio_add_timer aio _ _ => (tt, clobber aio m)
  | Aio_rm_timer aio _ => (tt, clobber aio m)
  | Cond_init cond => (tt, clobber cond m)
  end.

(** The log, the memory at the end, and the result unless the fuel ran
    out. *)
Fixpoint exec {R} (clobber : Z -> mem -> mem) (fuel : nat)
  (t : itree baseE R) (m : mem) : list base_entry * mem * option R :=
  match fuel with
  | O => ([], m, None)
  | S fuel' =>
      match observe t with
      | RetF r => ([], m, Some r)
      | TauF t' => exec clobber fuel' t' m
      | VisF e k =>
          let (x, m') := perform clobber e m in
          let '(log, m'', r) := exec clobber fuel' (k x) m' in
          (Did e :: log, m'', r)
      end
  end.

(** The tables registered with the dispatcher, with the dispatcher they
    were registered with. *)
Definition registered (log : list base_entry) : list (Z * sp_aio_vfptr) :=
  flat_map (fun c => match c with
                     | Did e => match e with
                                | Aio_init aio vfptr => [(aio, vfptr)]
                                | _ => []
                                end
                     end) log.

(** The objects initialised, in the order of their initialisation. *)
Definition initialised (log : list base_entry) : list Z :=
  flat_map (fun c => match c with
                     | Did e => match e with
                                | Aio_init aio _ => [aio]
                                | Cond_init cond => [cond]
                                | _ => []
                                end
                     end) log.

(** The timers armed: dispatcher and timer handle. *)
Definition armed (log : list base_entry) : list (Z * Z) :=
  flat_map (fun c => match c with
                     | Did e => match e with
                                | Aio_add_timer aio _ hndl => [(aio, hndl)]
                                | _ => []
                                end
                     end) log.

(** The objects terminated, in the order of their termination. *)
Definition terminated (log : list entry) : list Z :=
  flat_map (fun c => match c with
                     | Call e _ => match e with
                                   | Aio_term aio => [aio]
                                   | Cond_term cond => [cond]
                                   | _ => []
                                   end
                     | Pending _ => []
                     end) log.

(** The events posted: dispatcher, tag and handle. *)
Definition posted (log : list entry) : list (Z * Z * Z) :=
  flat_map (fun c => match c with
                     | Call e _ => match e with
                                   | Aio_post aio tag hndl => [(aio, tag, hndl)]
                                   | _ => []
                                   end
                     | Pending _ => []
                     end) log.

(** Calls on the mutex or the condition variable that can block. *)
Definition may_block (c : entry) : bool :=
  match c with
  | Call e _ =>
      match e with
      | Aio_lock _ | Aio_unlock _ | Cond_wait _ _ _ => true
      | _ => false
      end
  | Pending e =>
      match e with
      | Aio_lock _ | Aio_unlock _ | Cond_wait _ _ _ => true
      | _ => false
      end
  end.

Definition is_wait (c : entry) : bool :=
  match c with
  | Call e _ => match e with Cond_wait _ _ _ => true | _ => false end
  | Pending e => match e with Cond_wait _ _ _ => true | _ => false end
  end.

(** The log of a [getopt] that took the steps of a [setopt]. *)
Definition getopt_of {T} (e : sockE T) : sockE T :=
  match e in sockE T return sockE T with
  | V_setopt s o v l => V_getopt s o v l
  | e' => e'
  end.

Definition relabel_opt {R} (p : list entry * outcome R)
  : list entry * outcome R :=
  (map (fun c => match c with
                 | Call e r => Call (getopt_of e) r
                 | Pending e => Pending (getopt_of e)
                 end) (fst p),
   snd p).

(** ** Equations of the runner *)

Section RunFacts.

Context {R : Type}.
Implicit Types (t : itree sockE R) (script : list Z) (fuel : nat).

Lemma run_observe t u fuel script :
  observe t = observe u -> run fuel t script = run fuel u script.
Proof.
  intros H. destruct fuel; simpl; [reflexivity|]. rewrite H. reflexivity.
Qed.

Lemma run_O t script : run 0 t script = ([], Running).
Proof. reflexivity. Qed.

Lemma run_ret fuel (r : R) script :
  run (S fuel) (Ret r) script = ([], Returned r).
Proof. reflexivity. Qed.

Lemma run_tau fuel t script :
  run (S fuel) (Tau t) script = run fuel t script.
Proof. reflexivity. Qed.

Lemma run_bind_ret {X} (x : X) (k : X -> itree sockE R) fuel script :
  run fuel (ITree.bind (Ret x) k) script = run fuel (k x) script.
Proof. apply run_observe. reflexivity. Qed.

Lemma run_bind_trigger {X} (e : sockE X) (k : X -> itree sockE R) fuel script :
  run (S fuel) (ITree.bind (ITree.trigger e) k) script =
  match respond e script with
  | Answer x rest => logged (Call e x) (run fuel (k x) rest)
  | NoAnswer => ([Pending e], Suspended)
  | Fatal => ([], Aborted)
  end.
Proof.
  simpl. destruct (respond e script); try reflexivity.
  f_equal. apply run_observe. reflexivity.
Qed.

Lemma run_trigger (e : sockE R) fuel script :
  run (S (S fuel)) (ITree.trigger e) script =
  match respond e script with
  | Answer x rest => ([Call e x], Returned x)
  | NoAnswer => ([Pending e], Suspended)
  | Fatal => ([], Aborted)
  end.
Proof. simpl. destruct (respond e script); reflexivity. Qed.

Lemma run_iter {I} (body : I -> itree sockE (I + R)) (i : I) fuel script :
  run fuel (ITree.iter body i) script =
  run fuel
    (ITree.bind (body i)
       (fun lr => match lr with
                  | inl l => Tau (ITree.iter body l)
                  | inr r => Ret r
                  end))
    script.
Proof. apply run_observe. reflexivity. Qed.

(** Once a run has ended, more fuel changes nothing. *)
Lemma run_mono fuel : forall fuel' t script,
  (fuel <= fuel')%nat -> snd (run fuel t script) <> Running ->
  run fuel' t script = run fuel t script.
Proof.
  induction fuel as [|n IH]; intros m t script Hle Hend.
  - exfalso. apply Hend. reflexivity.
  - destruct m as [|m]; [lia|]. simpl in *.
    destruct (observe t) as [r|t'|X e k]; [reflexivity| |].
    + apply IH; [lia|assumption].
    + destruct (respond e script) as [x rest| |]; try reflexivity.
      unfold logged in *. simpl in Hend. rewrite IH; [reflexivity|lia|assumption].
Qed.


Lemma run_at_least fuel t script log o :
  run fuel t script = (log, o) -> o <> Running ->
  forall fuel', (fuel <= fuel')%nat -> run fuel' t script = (log, o).
Proof.
  intros Hrun Hend fuel' Hle. rewrite <- Hrun. apply run_mono; [assumption|].
  rewrite Hrun. assumption.
Qed.

(** With less fuel the log is a prefix of the log with more. *)
Lemma run_prefix fuel : forall fuel' t script,
  (fuel <= fuel')%nat ->
  exists more, fst (run fuel' t script) = fst (run fuel t script) ++ more.
Proof.
  induction fuel as [|n IH]; intros m t script Hle.
  - exists (fst (run m t script)). reflexivity.
  - destruct m as [|m]; [lia|]. simpl.
    destruct (observe t) as [r|t'|X e k]; [exists []; reflexivity| |].
    + apply IH. lia.
    + destruct (respond e script) as [x rest| |];
        try (exists []; reflexivity).
      destruct (IH m (k x) rest) as [more Hmore]; [lia|].
      exists more. cbn. rewrite Hmore. reflexivity.
Qed.

End RunFacts.



Lemma run_bind_bind {X Y R} (k : X -> itree sockE Y) (h : Y -> itree sockE R)
  fuel : forall (t : itree sockE X) script,
  run fuel (ITree.bind (ITree.bind t k) h) script =
  run fuel (ITree.bind t (fun x => ITree.bind (k x) h)) script.
Proof.
  induction fuel as [|n IH]; intros t script; [reflexivity|].
  cbn [run].
  rewrite (observe_bind (ITree.bind t k) h), (observe_bind t k),
    (observe_bind t (fun x => ITree.bind (k x) h)).
  destruct (observe t) as [r|t'|T e k'].
  - reflexivity.
  - apply IH.
  - cbn. destruct (respond e script); try reflexivity.
    f_equal. apply IH.
Qed.

Lemma logged_inv {X} c (p : list entry * outcome X) log o :
  logged c p = (log, o) -> exists log', log = c :: log' /\ p = (log', o).
Proof.
  destruct p as [log' o']. unfold logged. cbn. intros H. inversion H.
  eauto.
Qed.

Lemma released_cons aio c log :
  mutex_step aio true c = Some true ->
  is_lock aio c = false -> is_unlock aio c = false ->
  released aio log -> released aio (c :: log).
Proof.
  unfold released, count_lock, count_unlock.
  intros Hstep Hlock Hunlock (Hm & Hl & Hu).
  cbn [mutex filter]. rewrite Hstep, Hlock, Hunlock. auto.
Qed.

Lemma balanced_locked aio log :
  released aio log -> balanced aio (Call (Aio_lock aio) tt :: log).
Proof.
  unfold released, balanced, count_lock, count_unlock.
  intros (Hm & Hl & Hu). cbn. rewrite Z.eqb_refl. cbn. auto.
Qed.

Lemma balanced_option_call {T} aio (hook : sockE T) (x : T) :
  is_lock aio (Call hook x) = false ->
  is_unlock aio (Call hook x) = false ->
  mutex_step aio true (Call hook x) = Some true ->
  balanced aio
    [Call (Aio_lock aio) tt; Call hook x; Call (Aio_unlock aio) tt].
Proof.
  intros Hl Hu Hm. apply balanced_locked. apply released_cons; try assumption.
  unfold released, count_lock, count_unlock. cbn.
  rewrite Z.eqb_refl. cbn. auto.
Qed.

Lemma balanced_no_call aio :
  balanced aio [Call (Aio_lock aio) tt; Call (Aio_unlock aio) tt].
Proof.
  unfold balanced, count_lock, count_unlock. cbn.
  rewrite Z.eqb_refl. cbn. auto.
Qed.

Ltac run_step :=
  repeat (first
    [ rewrite run_bind_bind
    | rewrite run_bind_ret
    | rewrite run_bind_trigger
    | rewrite run_trigger
    | rewrite run_ret
    | rewrite run_tau
    | rewrite run_O ];
    cbn [respond next]);
  cbn [logged fst snd].

(** Enough fuel: reduce to the run with exactly [n] units. *)
Ltac enough_fuel n :=
  match goal with
  | H : (_ <= ?fuel)%nat |- context [run ?fuel ?t ?s] =>
      rewrite (run_mono n fuel t s) by (first [lia | simpl; discriminate])
  end.

(** ** The socket core *)

Section SockFacts.

Variables EAGAIN ENOPROTOOPT SP_SOL_SOCKET SP_DONTWAIT : Z.
Variables aio_off cond_off inevent_off outevent_off : Z.

Local Abbreviation term := (sp_sock_term aio_off cond_off).
Local Abbreviation setopt := (sp_sock_setopt ENOPROTOOPT SP_SOL_SOCKET aio_off).
Local Abbreviation getopt := (sp_sock_getopt ENOPROTOOPT SP_SOL_SOCKET aio_off).
Local Abbreviation send := (sp_sock_send EAGAIN SP_DONTWAIT aio_off cond_off).
Local Abbreviation recv := (sp_sock_recv EAGAIN SP_DONTWAIT aio_off cond_off).
Local Abbreviation notify_in := (sp_sock_in aio_off inevent_off).
Local Abbreviation notify_out := (sp_sock_out aio_off outevent_off).
Local Abbreviation event_cb :=
  (sp_sock_event aio_off cond_off inevent_off outevent_off).
Local Abbreviation timeout_cb := (sp_sock_timeout aio_off).

(** C6: [sp_sock_term] makes exactly three calls, in this order: the
    termination hook of the pattern, the termination of the condition
    variable, the termination of the dispatcher; then it returns. *)
Theorem sp_sock_term_order : forall self script fuel,
  (4 <= fuel)%nat ->
  run fuel (term self) script =
  ([Call (V_term self) tt;
    Call (Cond_term (self + cond_off)) tt;
    Call (Aio_term (self + aio_off)) tt], Returned tt).
Proof.
  intros self script fuel Hfuel.
  enough_fuel 4%nat. reflexivity.
Qed.

(** C7: [sp_sock_in] posts one event on the dispatcher of the socket, with
    the tag SP_SOCK_EVENT_IN and the address of the pipe's [inevent];
    [sp_sock_out] posts one with SP_SOCK_EVENT_OUT and the address of the
    pipe's [outevent].  Neither calls a hook of the pattern. *)
Theorem sp_sock_notify_posts : forall self pipe script fuel,
  (2 <= fuel)%nat ->
  run fuel (notify_in self pipe) script =
    ([Call (Aio_post (self + aio_off) SP_SOCK_EVENT_IN
              (pipe + inevent_off)) tt], Returned tt)
  /\ run fuel (notify_out self pipe) script =
    ([Call (Aio_post (self + aio_off) SP_SOCK_EVENT_OUT
              (pipe + outevent_off)) tt], Returned tt)
  /\ pattern_calls (fst (run fuel (notify_in self pipe) script)) = []
  /\ pattern_calls (fst (run fuel (notify_out self pipe) script)) = [].
Proof.
  intros self pipe script fuel Hfuel.
  rewrite (run_mono 2 fuel (notify_in self pipe))
    by (first [lia | simpl; discriminate]).
  rewrite (run_mono 2 fuel (notify_out self pipe))
    by (first [lia | simpl; discriminate]).
  repeat split; reflexivity.
Qed.

(** What [sp_sock_event] does once the hook has answered [rc]. *)
Lemma run_after_pipe_hook cond rc fuel script :
  run (S (S fuel))
    (ITree.bind (errnum_assert (0 <=? rc) (- rc))
       (fun _ => if rc =? 1 then ITree.trigger (Cond_post cond) else Ret tt))
    script =
  ((if rc =? 1 then [Call (Cond_post cond) tt] else []),
   if 0 <=? rc then Returned tt else Aborted).
Proof.
  unfold errnum_assert, sp_assert.
  destruct (0 <=? rc) eqn:Hsign.
  - run_step. destruct (rc =? 1); run_step; reflexivity.
  - run_step. destruct (rc =? 1) eqn:Hone; [|reflexivity].
    apply Z.eqb_eq in Hone. apply Z.leb_gt in Hsign. lia.
Qed.


Lemma run_event_in self hndl rc rest fuel :
  (3 <= fuel)%nat ->
  run fuel (event_cb self SP_SOCK_EVENT_IN hndl) (rc :: rest) =
  (Call (V_in (sp_cont self aio_off) (sp_cont hndl inevent_off)) rc ::
     (if rc =? 1
      then [Call (Cond_post (sp_cont self aio_off + cond_off)) tt]
      else []),
   if 0 <=? rc then Returned tt else Aborted).
Proof.
  intros Hfuel. rewrite (run_mono 3); [| lia |].
  - unfold sp_sock_event. change (SP_SOCK_EVENT_IN =? SP_SOCK_EVENT_IN) with true.
    cbv iota. rewrite run_bind_trigger. cbn [respond next].
    rewrite run_after_pipe_hook. reflexivity.
  - unfold sp_sock_event. change (SP_SOCK_EVENT_IN =? SP_SOCK_EVENT_IN) with true.
    cbv iota. rewrite run_bind_trigger. cbn [respond next].
    rewrite run_after_pipe_hook. simpl. destruct (0 <=? rc); discriminate.
Qed.

Lemma run_event_out self hndl rc rest fuel :
  (3 <= fuel)%nat ->
  run fuel (event_cb self SP_SOCK_EVENT_OUT hndl) (rc :: rest) =
  (Call (V_out (sp_cont self aio_off) (sp_cont hndl outevent_off)) rc ::
     (if rc =? 1
      then [Call (Cond_post (sp_cont self aio_off + cond_off)) tt]
      else []),
   if 0 <=? rc then Returned tt else Aborted).
Proof.
  intros Hfuel. rewrite (run_mono 3); [| lia |].
  - unfold sp_sock_event.
    change (SP_SOCK_EVENT_OUT =? SP_SOCK_EVENT_IN) with false.
    change (SP_SOCK_EVENT_OUT =? SP_SOCK_EVENT_OUT) with true.
    cbv iota. rewrite run_bind_trigger. cbn [respond next].
    rewrite run_after_pipe_hook. reflexivity.
  - unfold sp_sock_event.
    change (SP_SOCK_EVENT_OUT =? SP_SOCK_EVENT_IN) with false.
    change (SP_SOCK_EVENT_OUT =? SP_SOCK_EVENT_OUT) with true.
    cbv iota. rewrite run_bind_trigger. cbn [respond next].
    rewrite run_after_pipe_hook. simpl. destruct (0 <=? rc); discriminate.
Qed.

Lemma sp_cont_field base member : sp_cont (base + member) member = base.
Proof. unfold sp_cont. lia. Qed.

(** C8: the posted-event callback dispatches on the tag.  An event tagged
    SP_SOCK_EVENT_IN makes exactly one hook call, [in], on the pipe whose
    [inevent] the handle is; one tagged SP_SOCK_EVENT_OUT makes exactly one,
    [out], on the pipe whose [outevent] it is.  The condition variable of the
    socket is posted if and only if the hook answered 1 (readiness
    changed). *)
Theorem sp_sock_event_dispatch : forall self pipe rc rest fuel,
  (3 <= fuel)%nat ->
  let sock_aio := self + aio_off in
  let log_in :=
    fst (run fuel (event_cb sock_aio SP_SOCK_EVENT_IN (pipe + inevent_off))
           (rc :: rest)) in
  let log_out :=
    fst (run fuel (event_cb sock_aio SP_SOCK_EVENT_OUT (pipe + outevent_off))
           (rc :: rest)) in
  pattern_calls log_in = [Call (V_in self pipe) rc]
  /\ pattern_calls log_out = [Call (V_out self pipe) rc]
  /\ (existsb (is_post (self + cond_off)) log_in = true <-> rc = 1)
  /\ (existsb (is_post (self + cond_off)) log_out = true <-> rc = 1)
  /\ log_in = Call (V_in self pipe) rc ::
              (if rc =? 1 then [Call (Cond_post (self + cond_off)) tt] else [])
  /\ log_out = Call (V_out self pipe) rc ::
              (if rc =? 1 then [Call (Cond_post (self + cond_off)) tt] else [])
  /\ (0 <= rc ->
      snd (run fuel (event_cb sock_aio SP_SOCK_EVENT_IN (pipe + inevent_off))
             (rc :: rest)) = Returned tt
      /\ snd (run fuel (event_cb sock_aio SP_SOCK_EVENT_OUT (pipe + outevent_off))
             (rc :: rest)) = Returned tt).
Proof.
  intros self pipe rc rest fuel Hfuel sock_aio log_in log_out.
  subst sock_aio log_in log_out.
  rewrite run_event_in, run_event_out by assumption.
  rewrite !sp_cont_field. cbn [fst].
  assert (Hsign : 0 <= rc -> (0 <=? rc) = true) by (apply Z.leb_le).
  destruct (rc =? 1) eqn:Hone; cbn; rewrite ?Z.eqb_refl; cbn.
  - apply Z.eqb_eq in Hone.
    repeat split; auto; rewrite Hsign by assumption; reflexivity.
  - apply Z.eqb_neq in Hone.
    repeat split; auto; try discriminate; try tauto;
      rewrite Hsign by assumption; reflexivity.
Qed.

(** C9: the three internal-contract violations abort.  The raw I/O callback
    aborts whenever it is invoked; a posted event whose tag is neither
    SP_SOCK_EVENT_IN nor SP_SOCK_EVENT_OUT aborts before any hook is called;
    a negative answer of the [in] or [out] hook aborts right after the hook.
    None of the three returns to its caller. *)
Theorem sp_sock_contract_violations_abort : forall self hndl script fuel,
  (2 <= fuel)%nat ->
  (forall event, run fuel (sp_sock_io self event hndl) script = ([], Aborted))
  /\ (forall event,
        event <> SP_SOCK_EVENT_IN -> event <> SP_SOCK_EVENT_OUT ->
        run fuel (event_cb self event hndl) script = ([], Aborted))
  /\ (forall rc, rc < 0 ->
        run fuel (event_cb self SP_SOCK_EVENT_IN hndl) (rc :: script) =
          ([Call (V_in (sp_cont self aio_off) (sp_cont hndl inevent_off)) rc],
           Aborted)
        /\ run fuel (event_cb self SP_SOCK_EVENT_OUT hndl) (rc :: script) =
          ([Call (V_out (sp_cont self aio_off) (sp_cont hndl outevent_off)) rc],
           Aborted)).
Proof.
  intros self hndl script fuel Hfuel. repeat split.
  - intros event. enough_fuel 1%nat. reflexivity.
  - intros event Hin Hout.
    apply Z.eqb_neq in Hin. apply Z.eqb_neq in Hout.
    rewrite (run_mono 1); [| lia |];
      unfold sp_sock_event; rewrite Hin, Hout; [reflexivity | discriminate].
  - rewrite (run_mono 2); [| lia |];
      unfold sp_sock_event;
      change (SP_SOCK_EVENT_IN =? SP_SOCK_EVENT_IN) with true; cbv iota;
      rewrite run_bind_trigger; cbn [respond next];
      unfold errnum_assert, sp_assert;
      (replace (0 <=? rc) with false by (symmetry; apply Z.leb_gt; lia));
      run_step; [reflexivity | discriminate].
  - rewrite (run_mono 2); [| lia |];
      unfold sp_sock_event;
      change (SP_SOCK_EVENT_OUT =? SP_SOCK_EVENT_IN) with false;
      change (SP_SOCK_EVENT_OUT =? SP_SOCK_EVENT_OUT) with true; cbv iota;
      rewrite run_bind_trigger; cbn [respond next];
      unfold errnum_assert, sp_assert;
      (replace (0 <=? rc) with false by (symmetry; apply Z.leb_gt; lia));
      run_step; [reflexivity | discriminate].
Qed.

(** *** Socket options *)

Lemma run_setopt_consulted self option optval optvallen rc rest fuel :
  (4 <= fuel)%nat ->
  run fuel (setopt self SP_SOL_SOCKET option optval optvallen) (rc :: rest) =
  ([Call (Aio_lock (self + aio_off)) tt;
    Call (V_setopt self option optval optvallen) rc;
    Call (Aio_unlock (self + aio_off)) tt],
   Returned (if rc =? - ENOPROTOOPT then - ENOPROTOOPT else rc)).
Proof.
  intros Hfuel.
  rewrite (run_mono 4); [| lia |];
    unfold sp_sock_setopt; rewrite Z.eqb_refl; run_step;
    destruct (rc =? - ENOPROTOOPT); cbn [negb]; run_step;
    first [reflexivity | discriminate].
Qed.

Lemma run_getopt_consulted self option optval optvallen rc rest fuel :
  (4 <= fuel)%nat ->
  run fuel (getopt self SP_SOL_SOCKET option optval optvallen) (rc :: rest) =
  ([Call (Aio_lock (self + aio_off)) tt;
    Call (V_getopt self option optval optvallen) rc;
    Call (Aio_unlock (self + aio_off)) tt],
   Returned (if rc =? - ENOPROTOOPT then - ENOPROTOOPT else rc)).
Proof.
  intros Hfuel.
  rewrite (run_mono 4); [| lia |];
    unfold sp_sock_getopt; rewrite Z.eqb_refl; run_step;
    destruct (rc =? - ENOPROTOOPT); cbn [negb]; run_step;
    first [reflexivity | discriminate].
Qed.

Lemma run_setopt_other_level self level option optval optvallen script fuel :
  level <> SP_SOL_SOCKET -> (3 <= fuel)%nat ->
  run fuel (setopt self level option optval optvallen) script =
  ([Call (Aio_lock (self + aio_off)) tt;
    Call (Aio_unlock (self + aio_off)) tt], Returned (- ENOPROTOOPT)).
Proof.
  intros Hlevel Hfuel. apply Z.eqb_neq in Hlevel.
  rewrite (run_mono 3); [| lia |];
    unfold sp_sock_setopt; rewrite Hlevel; run_step;
    first [reflexivity | discriminate].
Qed.

Lemma run_getopt_other_level self level option optval optvallen script fuel :
  level <> SP_SOL_SOCKET -> (3 <= fuel)%nat ->
  run fuel (getopt self level option optval optvallen) script =
  ([Call (Aio_lock (self + aio_off)) tt;
    Call (Aio_unlock (self + aio_off)) tt], Returned (- ENOPROTOOPT)).
Proof.
  intros Hlevel Hfuel. apply Z.eqb_neq in Hlevel.
  rewrite (run_mono 3); [| lia |];
    unfold sp_sock_getopt; rewrite Hlevel; run_step;
    first [reflexivity | discriminate].
Qed.

Lemma run_setopt_no_answer self option optval optvallen fuel :
  (2 <= fuel)%nat ->
  run fuel (setopt self SP_SOL_SOCKET option optval optvallen) [] =
  ([Call (Aio_lock (self + aio_off)) tt;
    Pending (V_setopt self option optval optvallen)], Suspended).
Proof.
  intros Hfuel.
  rewrite (run_mono 2); [| lia |];
    unfold sp_sock_setopt; rewrite Z.eqb_refl; run_step;
    first [reflexivity | discriminate].
Qed.

Lemma run_getopt_no_answer self option optval optvallen fuel :
  (2 <= fuel)%nat ->
  run fuel (getopt self SP_SOL_SOCKET option optval optvallen) [] =
  ([Call (Aio_lock (self + aio_off)) tt;
    Pending (V_getopt self option optval optvallen)], Suspended).
Proof.
  intros Hfuel.
  rewrite (run_mono 2); [| lia |];
    unfold sp_sock_getopt; rewrite Z.eqb_refl; run_step;
    first [reflexivity | discriminate].
Qed.

(** The complete log of an option call, whatever the level and the
    script. *)
Lemma run_setopt_cases self level option optval optvallen script fuel :
  (4 <= fuel)%nat ->
  let lock := Call (Aio_lock (self + aio_off)) tt in
  let unlock := Call (Aio_unlock (self + aio_off)) tt in
  let hook := V_setopt self option optval optvallen in
  let result := run fuel (setopt self level option optval optvallen) script in
  result = ([lock; unlock], Returned (- ENOPROTOOPT))
  \/ result = ([lock; Pending hook], Suspended)
  \/ exists rc, result = ([lock; Call hook rc; unlock], Returned rc).
Proof.
  intros Hfuel. cbv zeta.
  destruct (Z.eq_dec level SP_SOL_SOCKET) as [->|Hlevel].
  - destruct script as [|rc rest].
    + right. left. apply run_setopt_no_answer. lia.
    + right. right. exists rc. rewrite run_setopt_consulted by assumption.
      destruct (rc =? - ENOPROTOOPT) eqn:Hrc; [|reflexivity].
      apply Z.eqb_eq in Hrc. rewrite <- Hrc. reflexivity.
  - left. apply run_setopt_other_level; [assumption|lia].
Qed.

Lemma run_getopt_cases self level option optval optvallen script fuel :
  (4 <= fuel)%nat ->
  let lock := Call (Aio_lock (self + aio_off)) tt in
  let unlock := Call (Aio_unlock (self + aio_off)) tt in
  let hook := V_getopt self option optval optvallen in
  let result := run fuel (getopt self level option optval optvallen) script in
  result = ([lock; unlock], Returned (- ENOPROTOOPT))
  \/ result = ([lock; Pending hook], Suspended)
  \/ exists rc, result = ([lock; Call hook rc; unlock], Returned rc).
Proof.
  intros Hfuel. cbv zeta.
  destruct (Z.eq_dec level SP_SOL_SOCKET) as [->|Hlevel].
  - destruct script as [|rc rest].
    + right. left. apply run_getopt_no_answer. lia.
    + right. right. exists rc. rewrite run_getopt_consulted by assumption.
      destruct (rc =? - ENOPROTOOPT) eqn:Hrc; [|reflexivity].
      apply Z.eqb_eq in Hrc. rewrite <- Hrc. reflexivity.
  - left. apply run_getopt_other_level; [assumption|lia].
Qed.

(** C5: when [sp_sock_setopt] or [sp_sock_getopt] consults the hook of the
    pattern (the level is SP_SOL_SOCKET), an answer other than -ENOPROTOOPT,
    success and other errors alike, is returned to the caller as it is, and
    the answer -ENOPROTOOPT falls through to the end of the function, which
    returns -ENOPROTOOPT. *)
Theorem sp_sock_opt_hook_result : forall self option optval optvallen rc rest fuel,
  (4 <= fuel)%nat ->
  let lock := Call (Aio_lock (self + aio_off)) tt in
  let unlock := Call (Aio_unlock (self + aio_off)) tt in
  let set_hook := Call (V_setopt self option optval optvallen) rc in
  let get_hook := Call (V_getopt self option optval optvallen) rc in
  (rc <> - ENOPROTOOPT ->
     run fuel (setopt self SP_SOL_SOCKET option optval optvallen) (rc :: rest)
       = ([lock; set_hook; unlock], Returned rc)
     /\ run fuel (getopt self SP_SOL_SOCKET option optval optvallen) (rc :: rest)
       = ([lock; get_hook; unlock], Returned rc))
  /\ (rc = - ENOPROTOOPT ->
     run fuel (setopt self SP_SOL_SOCKET option optval optvallen) (rc :: rest)
       = ([lock; set_hook; unlock], Returned (- ENOPROTOOPT))
     /\ run fuel (getopt self SP_SOL_SOCKET option optval optvallen) (rc :: rest)
       = ([lock; get_hook; unlock], Returned (- ENOPROTOOPT))).
Proof.
  intros self option optval optvallen rc rest fuel Hfuel.
  cbv zeta.
  rewrite run_setopt_consulted, run_getopt_consulted by assumption.
  split; intros Hrc.
  - apply Z.eqb_neq in Hrc. rewrite Hrc. split; reflexivity.
  - apply Z.eqb_eq in Hrc. rewrite Hrc. split; reflexivity.
Qed.

(** C2, as the code has it: [sp_sock_setopt] and [sp_sock_getopt] forward
    the request to the hook of the pattern when the level IS SP_SOL_SOCKET;
    at any other level the pattern is not consulted.  When the pattern is not
    consulted, or answers -ENOPROTOOPT, the call returns -ENOPROTOOPT, which
    is not success. *)
Theorem sp_sock_opt_forwarding :
  0 < ENOPROTOOPT ->
  forall self level option optval optvallen rc rest fuel,
  (4 <= fuel)%nat ->
  let set := run fuel (setopt self level option optval optvallen) (rc :: rest) in
  let get := run fuel (getopt self level option optval optvallen) (rc :: rest) in
  (level = SP_SOL_SOCKET ->
     pattern_calls (fst set) = [Call (V_setopt self option optval optvallen) rc]
     /\ pattern_calls (fst get) = [Call (V_getopt self option optval optvallen) rc]
     /\ (rc = - ENOPROTOOPT ->
         snd set = Returned (- ENOPROTOOPT) /\ snd get = Returned (- ENOPROTOOPT)))
  /\ (level <> SP_SOL_SOCKET ->
     pattern_calls (fst set) = [] /\ pattern_calls (fst get) = []
     /\ snd set = Returned (- ENOPROTOOPT) /\ snd get = Returned (- ENOPROTOOPT))
  /\ - ENOPROTOOPT <> 0.
Proof.
  intros Hpos self level option optval optvallen rc rest fuel Hfuel set get.
  subst set get. repeat apply conj.
  - intros ->.
    rewrite run_setopt_consulted, run_getopt_consulted by assumption.
    repeat split; try reflexivity; cbn [snd]; subst rc;
      rewrite Z.eqb_refl; reflexivity.
  - intros Hlevel.
    rewrite run_setopt_other_level, run_getopt_other_level by (assumption || lia).
    repeat split; reflexivity.
  - lia.
Qed.

(** *** Send and receive *)

(** The source functions are the protocol of the specification with the
    send hook and with the receive hook. *)
Lemma sp_sock_send_retry self buf len flags :
  send self buf len flags =
  blocking_retry EAGAIN SP_DONTWAIT aio_off cond_off Sending self buf len flags.
Proof. reflexivity. Qed.

Lemma sp_sock_recv_retry self buf len flags :
  recv self buf len flags =
  blocking_retry EAGAIN SP_DONTWAIT aio_off cond_off Receiving self buf len flags.
Proof. reflexivity. Qed.

Lemma respond_nb_hook d self buf len script :
  respond (nb_hook d self buf len) script = next script.
Proof. destruct d; reflexivity. Qed.

Lemma run_unlock_return aio (z : Z) (body : unit -> itree sockE (unit + Z))
  fuel script :
  run fuel
    (ITree.bind
       (ITree.bind (ITree.trigger (Aio_unlock aio)) (fun _ => Ret (inr z)))
       (fun lr => match lr with
                  | inl l => Tau (ITree.iter body l)
                  | inr r => Ret r
                  end))
    script =
  finish (Call (Aio_unlock aio) tt) fuel z.
Proof. destruct fuel as [|[|fuel]]; run_step; reflexivity. Qed.

(** The loop of [blocking_retry] runs as [retry_run] spells it out. *)
Lemma run_retry_loop d self buf len flags : forall fuel script,
  run fuel
    (ITree.iter
       (retry_body EAGAIN SP_DONTWAIT aio_off cond_off d self buf len flags) tt)
    script =
  retry_run EAGAIN SP_DONTWAIT (nb_hook d self buf len)
    (Cond_wait (self + cond_off) (self + aio_off) (-1))
    (Call (Aio_unlock (self + aio_off)) tt) flags fuel script.
Proof.
  induction fuel as [fuel IH] using lt_wf_ind. intros script.
  destruct fuel as [|n]; [reflexivity|].
  rewrite run_iter. unfold retry_body at 1.
  rewrite run_bind_bind, run_bind_trigger, respond_nb_hook.
  destruct script as [|rc s]; [reflexivity|].
  cbn [next retry_run]. f_equal.
  destruct (rc =? 0); [apply run_unlock_return|].
  destruct (negb (rc =? - EAGAIN)); [apply run_unlock_return|].
  destruct (negb (Z.land flags SP_DONTWAIT =? 0)); [apply run_unlock_return|].
  destruct n as [|n1]; [reflexivity|].
  run_step. destruct s as [|w s']; [reflexivity|].
  cbn [next logged fst snd]. unfold errnum_assert, sp_assert.
  destruct n1 as [|n2]; [reflexivity|].
  destruct (w =? 0); run_step; [|reflexivity].
  rewrite IH by lia. reflexivity.
Qed.

Lemma run_send self buf len flags fuel script :
  run (S fuel) (send self buf len flags) script =
  logged (Call (Aio_lock (self + aio_off)) tt)
    (retry_run EAGAIN SP_DONTWAIT (V_send self buf len)
       (Cond_wait (self + cond_off) (self + aio_off) (-1))
       (Call (Aio_unlock (self + aio_off)) tt) flags fuel script).
Proof.
  rewrite sp_sock_send_retry. unfold blocking_retry.
  rewrite run_bind_trigger. cbn [respond]. f_equal.
  apply (run_retry_loop Sending).
Qed.

Lemma run_recv self buf len flags fuel script :
  run (S fuel) (recv self buf len flags) script =
  logged (Call (Aio_lock (self + aio_off)) tt)
    (retry_run EAGAIN SP_DONTWAIT (V_recv self buf len)
       (Cond_wait (self + cond_off) (self + aio_off) (-1))
       (Call (Aio_unlock (self + aio_off)) tt) flags fuel script).
Proof.
  rewrite sp_sock_recv_retry. unfold blocking_retry.
  rewrite run_bind_trigger. cbn [respond]. f_equal.
  apply (run_retry_loop Receiving).
Qed.

Section Retry.

Variables (d : direction) (self buf len flags : Z).

Let aio := self + aio_off.
Let wait := Cond_wait (self + cond_off) aio (-1).
Let unlock := Call (Aio_unlock aio) tt.
Let loop hook := retry_run EAGAIN SP_DONTWAIT hook wait unlock flags.

Lemma relabel_finish fuel r :
  relabel (finish unlock fuel r) = finish unlock fuel r.
Proof. destruct fuel as [|[|fuel]]; reflexivity. Qed.

(** The receive loop takes, turn by turn, the steps of the send loop. *)
Lemma retry_run_relabel : forall fuel script,
  loop (V_recv self buf len) fuel script =
  relabel (loop (V_send self buf len) fuel script).
Proof.
  unfold loop.
  induction fuel as [fuel IH] using lt_wf_ind. intros script.
  destruct fuel as [|n]; [reflexivity|].
  destruct script as [|rc s]; [reflexivity|].
  cbn [retry_run].
  destruct (rc =? 0);
    [unfold relabel, logged; cbn [fst snd map relabel_entry recv_of];
     rewrite <- (relabel_finish n 0) at 1; reflexivity|].
  destruct (negb (rc =? - EAGAIN));
    [unfold relabel, logged; cbn [fst snd map relabel_entry recv_of];
     rewrite <- (relabel_finish n rc) at 1; reflexivity|].
  destruct (negb (Z.land flags SP_DONTWAIT =? 0));
    [unfold relabel, logged; cbn [fst snd map relabel_entry recv_of];
     rewrite <- (relabel_finish n (- EAGAIN)) at 1; reflexivity|].
  destruct n as [|n1]; [reflexivity|].
  destruct s as [|w s']; [reflexivity|].
  destruct n1 as [|n2]; [reflexivity|].
  destruct (w =? 0); [|reflexivity].
  rewrite IH by lia.
  reflexivity.
Qed.



Lemma released_finish fuel r log z :
  finish unlock fuel r = (log, Returned z) -> released aio log.
Proof.
  destruct fuel as [|[|fuel]]; intros H; inversion H; subst.
  unfold released, count_lock, count_unlock. cbn.
  rewrite Z.eqb_refl. cbn. auto.
Qed.

Lemma retry_run_released : forall fuel script log z,
  loop (nb_hook d self buf len) fuel script = (log, Returned z) ->
  released aio log.
Proof.
  unfold loop.
  induction fuel as [fuel IH] using lt_wf_ind. intros script log z.
  destruct fuel as [|n]; [discriminate|].
  destruct script as [|rc s]; [discriminate|].
  cbn [retry_run]. intros H.
  apply logged_inv in H. destruct H as (log1 & -> & H).
  apply released_cons; try (destruct d; reflexivity).
  revert H.
  destruct (rc =? 0); [apply released_finish|].
  destruct (negb (rc =? - EAGAIN)); [apply released_finish|].
  destruct (negb (Z.land flags SP_DONTWAIT =? 0)); [apply released_finish|].
  destruct n as [|n1]; [discriminate|].
  destruct s as [|w s']; [discriminate|].
  intros H. apply logged_inv in H. destruct H as (log2 & -> & H).
  apply released_cons; try reflexivity.
  { unfold wait. cbn. rewrite Z.eqb_refl. reflexivity. }
  destruct n1 as [|n2]; [discriminate|].
  destruct (w =? 0); [|discriminate].
  apply IH in H; [assumption|lia].
Qed.

Lemma finish_not_eagain fuel r :
  r <> - EAGAIN -> snd (finish unlock fuel r) <> Returned (- EAGAIN).
Proof.
  intros Hr. destruct fuel as [|[|fuel]]; cbn; try discriminate.
  intros H. inversion H. contradiction.
Qed.

(** A blocking caller never gets -EAGAIN back. *)
Lemma retry_run_never_eagain hook :
  0 < EAGAIN -> Z.land flags SP_DONTWAIT = 0 ->
  forall fuel script, snd (loop hook fuel script) <> Returned (- EAGAIN).
Proof.
  intros Hpos Hblocking. unfold loop.
  induction fuel as [fuel IH] using lt_wf_ind. intros script.
  destruct fuel as [|n]; [discriminate|].
  destruct script as [|rc s]; [discriminate|].
  cbn [retry_run logged snd].
  destruct (rc =? 0) eqn:Hzero; [apply finish_not_eagain; lia|].
  destruct (rc =? - EAGAIN) eqn:Hagain; cbn [negb];
    [|apply finish_not_eagain; apply Z.eqb_neq; assumption].
  rewrite Hblocking. cbn [Z.eqb negb].
  destruct n as [|n1]; [discriminate|].
  destruct s as [|w s']; [discriminate|].
  destruct n1 as [|n2]; [discriminate|].
  cbn [logged snd].
  destruct (w =? 0); [|discriminate].
  apply IH. lia.
Qed.

(** [n] turns in which the hook says -EAGAIN and the wait comes back
    with 0. *)
Lemma retry_run_rounds hook :
  0 < EAGAIN ->
  forall n fuel tail,
  n = 0%nat \/ Z.land flags SP_DONTWAIT = 0 ->
  loop hook (3 * n + fuel) (concat (repeat [- EAGAIN; 0] n) ++ tail) =
  (concat (repeat [Call hook (- EAGAIN); Call wait 0] n)
     ++ fst (loop hook fuel tail),
   snd (loop hook fuel tail)).
Proof.
  intros Hpos. unfold loop.
  induction n as [|n IH]; intros fuel tail Hblocking.
  - cbn [repeat concat app Nat.mul Nat.add].
    apply surjective_pairing.
  - destruct Hblocking as [|Hblocking]; [discriminate|].
    replace (3 * S n + fuel)%nat with (S (S (S (3 * n + fuel)))) by lia.
    cbn [repeat concat app retry_run].
    replace (- EAGAIN =? 0) with false by (symmetry; apply Z.eqb_neq; lia).
    rewrite Z.eqb_refl, Hblocking. cbn [negb Z.eqb].
    rewrite IH by (right; assumption). reflexivity.
Qed.

End Retry.

(** C4: [sp_sock_recv] has the control structure of [sp_sock_send]: with
    any flags, any results of the hook and of the waits, and at every step
    of the run, the log of the receive is the log of the send with the
    receive hook in the place of the send hook, and the outcome (returned
    value, abort, suspension) is the same. *)
Theorem sp_sock_recv_like_send : forall self buf len flags fuel script,
  run fuel (recv self buf len flags) script =
  relabel (run fuel (send self buf len flags) script).
Proof.
  intros self buf len flags fuel script.
  destruct fuel as [|fuel]; [reflexivity|].
  rewrite run_send, run_recv, retry_run_relabel. reflexivity.
Qed.

(** C1: the blocking-retry protocol of [sp_sock_send].  The mutex of the
    dispatcher is locked first and the send hook is called.  After [n]
    turns in which the hook said -EAGAIN and the wait came back (a
    non-blocking caller has none, [n = 0]):
    (a) the hook answers 0: the call unlocks and returns 0;
    (b) the hook answers another error than -EAGAIN: the call unlocks and
        returns that error as it is;
    (c) the hook answers -EAGAIN and SP_DONTWAIT is set: the call unlocks
        and returns -EAGAIN, without any wait;
    (d) the hook answers -EAGAIN and SP_DONTWAIT is not set: the call
        waits on the condition variable with timeout -1, stays there
        until the wait comes back, calls the hook again after it, and
        whatever the hook and the waits answer it never returns -EAGAIN. *)
Theorem sp_sock_send_protocol :
  0 < EAGAIN ->
  forall self buf len flags n rest fuel,
  let aio := self + aio_off in
  let lock := Call (Aio_lock aio) tt in
  let unlock := Call (Aio_unlock aio) tt in
  let hook := V_send self buf len in
  let wait := Cond_wait (self + cond_off) aio (-1) in
  let blocking := Z.land flags SP_DONTWAIT = 0 in
  let script := concat (repeat [- EAGAIN; 0] n) in
  let log := lock :: concat (repeat [Call hook (- EAGAIN); Call wait 0] n) in
  n = 0%nat \/ blocking ->
  (3 * n + 5 <= fuel)%nat ->
  run fuel (send self buf len flags) (script ++ 0 :: rest) =
    (log ++ [Call hook 0; unlock], Returned 0)
  /\ (forall rc, rc <> 0 -> rc <> - EAGAIN ->
      run fuel (send self buf len flags) (script ++ rc :: rest) =
        (log ++ [Call hook rc; unlock], Returned rc))
  /\ (~ blocking ->
      run fuel (send self buf len flags) (- EAGAIN :: rest) =
        ([lock; Call hook (- EAGAIN); unlock], Returned (- EAGAIN)))
  /\ (blocking ->
      run fuel (send self buf len flags) (script ++ [- EAGAIN]) =
        (log ++ [Call hook (- EAGAIN); Pending wait], Suspended)
      /\ run fuel (send self buf len flags) (script ++ [- EAGAIN; 0]) =
        (log ++ [Call hook (- EAGAIN); Call wait 0; Pending hook], Suspended)
      /\ forall fuel' script',
           snd (run fuel' (send self buf len flags) script') <>
           Returned (- EAGAIN)).
Proof.
  intros Hpos self buf len flags n rest fuel.
  cbv zeta. intros Hn Hfuel.
  pose (turn := retry_run EAGAIN SP_DONTWAIT (V_send self buf len)
                  (Cond_wait (self + cond_off) (self + aio_off) (-1))
                  (Call (Aio_unlock (self + aio_off)) tt) flags 4).
  assert (Hrun : forall tail,
    run (S (3 * n + 4)) (send self buf len flags)
      (concat (repeat [- EAGAIN; 0] n) ++ tail) =
    ((Call (Aio_lock (self + aio_off)) tt ::
        concat (repeat [Call (V_send self buf len) (- EAGAIN);
                        Call (Cond_wait (self + cond_off) (self + aio_off) (-1)) 0]
                  n)) ++ fst (turn tail),
     snd (turn tail))).
  { intros tail. rewrite run_send.
    rewrite (retry_run_rounds self flags (V_send self buf len) Hpos n 4%nat tail Hn).
    reflexivity. }
  subst turn.
  assert (Hz : (- EAGAIN =? 0) = false) by (apply Z.eqb_neq; lia).
  repeat apply conj.
  - apply (run_at_least (S (3 * n + 4))); [|discriminate|lia].
    rewrite Hrun. reflexivity.
  - intros rc Hrc Hagain.
    apply Z.eqb_neq in Hrc. apply Z.eqb_neq in Hagain.
    apply (run_at_least (S (3 * n + 4))); [|discriminate|lia].
    rewrite Hrun. cbn [retry_run]. rewrite Hrc, Hagain. reflexivity.
  - intros Hnb.
    apply (run_at_least 4%nat); [|discriminate|lia].
    rewrite run_send. cbn [retry_run]. rewrite Hz, Z.eqb_refl.
    cbn [negb].
    replace (Z.land flags SP_DONTWAIT =? 0) with false
      by (symmetry; apply Z.eqb_neq; assumption).
    reflexivity.
  - intros Hb. repeat apply conj.
    + apply (run_at_least (S (3 * n + 4))); [|discriminate|lia].
      rewrite Hrun. cbn [retry_run]. rewrite Hz, Z.eqb_refl, Hb. reflexivity.
    + apply (run_at_least (S (3 * n + 4))); [|discriminate|lia].
      rewrite Hrun. cbn [retry_run]. rewrite Hz, Z.eqb_refl, Hb. reflexivity.
    + intros fuel' script'.
      destruct fuel' as [|fuel']; [discriminate|].
      rewrite run_send. cbn [logged snd].
      apply retry_run_never_eagain; assumption.
Qed.




(** C10: every run of [sp_sock_setopt], [sp_sock_getopt], [sp_sock_send]
    and [sp_sock_recv] that returns to the caller has locked the mutex of
    the dispatcher once, at entry, and unlocked it once; the waits in
    between gave it up and took it back; the mutex is free at the return and
    is never unlocked while free. *)
Theorem sp_sock_lock_balance : forall self fuel script log r,
  let aio := self + aio_off in
  (forall level option optval optvallen,
     (run fuel (setopt self level option optval optvallen) script
        = (log, Returned r) -> balanced aio log)
     /\ (run fuel (getopt self level option optval optvallen) script
        = (log, Returned r) -> balanced aio log))
  /\ (forall buf len flags,
     (run fuel (send self buf len flags) script = (log, Returned r) ->
      balanced aio log)
     /\ (run fuel (recv self buf len flags) script = (log, Returned r) ->
      balanced aio log)).
Proof.
  intros self fuel script log r. cbv zeta. split.
  - intros level option optval optvallen. split; intros H.
    + assert (Hmore := run_at_least _ _ _ _ _ H ltac:(discriminate)
                         (fuel + 4)%nat ltac:(lia)).
      clear H. rename Hmore into H.
      destruct (run_setopt_cases self level option optval optvallen script
                  (fuel + 4)) as [H'|[H'|[rc H']]]; [lia| | |];
        rewrite H' in H; inversion H; subst.
      * apply balanced_no_call.
      * apply balanced_option_call; reflexivity.
    + assert (Hmore := run_at_least _ _ _ _ _ H ltac:(discriminate)
                         (fuel + 4)%nat ltac:(lia)).
      clear H. rename Hmore into H.
      destruct (run_getopt_cases self level option optval optvallen script
                  (fuel + 4)) as [H'|[H'|[rc H']]]; [lia| | |];
        rewrite H' in H; inversion H; subst.
      * apply balanced_no_call.
      * apply balanced_option_call; reflexivity.
  - intros buf len flags. split; intros H.
    + destruct fuel as [|fuel]; [discriminate|].
      rewrite run_send in H. apply logged_inv in H.
      destruct H as (log' & -> & H).
      apply balanced_locked.
      apply (retry_run_released Sending) in H. exact H.
    + destruct fuel as [|fuel]; [discriminate|].
      rewrite run_recv in H. apply logged_inv in H.
      destruct H as (log' & -> & H).
      apply balanced_locked.
      apply (retry_run_released Receiving) in H. exact H.
Qed.

End SockFacts.

(** ** The theorems at concrete inputs

    Linux numbers for the constants (EAGAIN 11, ENOPROTOOPT 92), 1 for
    SP_SOL_SOCKET and SP_DONTWAIT, a socket at address 1000 with [aio] at
    offset 8 and [cond] at offset 40, a pipe at address 5000 with [inevent]
    at offset 16 and [outevent] at offset 24. *)

Lemma sp_sock_term_order_witness :
  (4 <= 4)%nat
  /\ run 4 (sp_sock_term 8 40 1000) [] =
     ([Call (V_term 1000) tt; Call (Cond_term 1040) tt;
       Call (Aio_term 1008) tt], Returned tt).
Proof.
  split; [lia|].
  apply (sp_sock_term_order 8 40 1000 [] 4). lia.
Defined.

Lemma sp_sock_notify_posts_witness :
  (2 <= 2)%nat
  /\ run 2 (sp_sock_in 8 16 1000 5000) [] =
     ([Call (Aio_post 1008 1 5016) tt], Returned tt)
  /\ run 2 (sp_sock_out 8 24 1000 5000) [] =
     ([Call (Aio_post 1008 2 5024) tt], Returned tt).
Proof.
  split; [lia|].
  destruct (sp_sock_notify_posts 8 16 24 1000 5000 [] 2) as (Hin & Hout & _);
    [lia|].
  split; [exact Hin | exact Hout].
Defined.

Lemma sp_sock_event_dispatch_witness :
  (3 <= 3)%nat
  /\ pattern_calls
       (fst (run 3 (sp_sock_event 8 40 16 24 1008 SP_SOCK_EVENT_IN 5016) [1])) =
     [Call (V_in 1000 5000) 1]
  /\ fst (run 3 (sp_sock_event 8 40 16 24 1008 SP_SOCK_EVENT_OUT 5024) [1]) =
     [Call (V_out 1000 5000) 1; Call (Cond_post 1040) tt]
  /\ snd (run 3 (sp_sock_event 8 40 16 24 1008 SP_SOCK_EVENT_OUT 5024) [1]) =
     Returned tt.
Proof.
  split; [lia|].
  destruct (sp_sock_event_dispatch 8 40 16 24 1000 5000 1 [] 3)
    as (Hin & _ & _ & _ & _ & Hout & Hret); [lia|].
  destruct Hret as [_ Hret]; [lia|].
  split; [exact Hin|]. split; [exact Hout | exact Hret].
Defined.

Lemma sp_sock_contract_violations_abort_witness :
  (2 <= 2)%nat /\ 3 <> SP_SOCK_EVENT_IN /\ 3 <> SP_SOCK_EVENT_OUT /\ -1 < 0
  /\ run 2 (sp_sock_io 1008 1 5016) [] = ([], Aborted)
  /\ run 2 (sp_sock_event 8 40 16 24 1008 3 5016) [] = ([], Aborted)
  /\ run 2 (sp_sock_event 8 40 16 24 1008 1 5016) [-1] =
     ([Call (V_in 1000 5000) (-1)], Aborted)
  /\ run 2 (sp_sock_event 8 40 16 24 1008 2 5024) [-1] =
     ([Call (V_out 1000 5000) (-1)], Aborted).
Proof.
  assert (Hin : 3 <> SP_SOCK_EVENT_IN) by discriminate.
  assert (Hout : 3 <> SP_SOCK_EVENT_OUT) by discriminate.
  assert (Hneg : -1 < 0) by lia.
  destruct (sp_sock_contract_violations_abort 8 40 16 24 1008 5016 [] 2)
    as (Hio & Htag & Hrc); [lia|].
  destruct (sp_sock_contract_violations_abort 8 40 16 24 1008 5024 [] 2)
    as (_ & _ & Hrc'); [lia|].
  split; [lia|]. split; [exact Hin|]. split; [exact Hout|].
  split; [exact Hneg|]. split; [exact (Hio 1)|].
  split; [exact (Htag 3 Hin Hout)|].
  split; [exact (proj1 (Hrc (-1) Hneg)) | exact (proj2 (Hrc' (-1) Hneg))].
Defined.

Lemma sp_sock_opt_hook_result_witness :
  (4 <= 4)%nat /\ -22 <> - 92 /\ -92 = - 92
  /\ run 4 (sp_sock_setopt 92 1 8 1000 1 5 600 4) [-22] =
     ([Call (Aio_lock 1008) tt; Call (V_setopt 1000 5 600 4) (-22);
       Call (Aio_unlock 1008) tt], Returned (-22))
  /\ run 4 (sp_sock_getopt 92 1 8 1000 1 5 600 4) [0] =
     ([Call (Aio_lock 1008) tt; Call (V_getopt 1000 5 600 4) 0;
       Call (Aio_unlock 1008) tt], Returned 0)
  /\ run 4 (sp_sock_setopt 92 1 8 1000 1 5 600 4) [-92] =
     ([Call (Aio_lock 1008) tt; Call (V_setopt 1000 5 600 4) (-92);
       Call (Aio_unlock 1008) tt], Returned (-92)).
Proof.
  assert (Hfuel : (4 <= 4)%nat) by lia.
  assert (Herr : -22 <> - 92) by discriminate.
  assert (Hok : 0 <> - 92) by discriminate.
  assert (Hunknown : -92 = - 92) by reflexivity.
  split; [exact Hfuel|]. split; [exact Herr|]. split; [exact Hunknown|].
  split;
    [exact (proj1 (proj1 (sp_sock_opt_hook_result 92 1 8 1000 5 600 4 (-22)
                            [] 4 Hfuel) Herr))|].
  split;
    [exact (proj2 (proj1 (sp_sock_opt_hook_result 92 1 8 1000 5 600 4 0
                            [] 4 Hfuel) Hok))|].
  exact (proj1 (proj2 (sp_sock_opt_hook_result 92 1 8 1000 5 600 4 (-92)
                         [] 4 Hfuel) Hunknown)).
Defined.

Lemma sp_sock_opt_forwarding_witness :
  0 < 92 /\ (4 <= 4)%nat /\ 1 = 1 /\ 2 <> 1
  /\ pattern_calls (fst (run 4 (sp_sock_setopt 92 1 8 1000 1 5 600 4) [0])) =
     [Call (V_setopt 1000 5 600 4) 0]
  /\ pattern_calls (fst (run 4 (sp_sock_getopt 92 1 8 1000 2 5 600 4) [0])) = []
  /\ snd (run 4 (sp_sock_getopt 92 1 8 1000 2 5 600 4) [0]) = Returned (-92).
Proof.
  assert (Hpos : 0 < 92) by lia.
  assert (Hfuel : (4 <= 4)%nat) by lia.
  assert (Hother : 2 <> 1) by discriminate.
  destruct (sp_sock_opt_forwarding 92 1 8 Hpos 1000 1 5 600 4 0 [] 4 Hfuel)
    as (Hsame & _ & _).
  destruct (sp_sock_opt_forwarding 92 1 8 Hpos 1000 2 5 600 4 0 [] 4 Hfuel)
    as (_ & Hdiff & _).
  destruct (Hsame eq_refl) as (Hset & _ & _).
  destruct (Hdiff Hother) as (_ & Hget & _ & Hret).
  split; [exact Hpos|]. split; [exact Hfuel|]. split; [reflexivity|].
  split; [exact Hother|]. split; [exact Hset|].
  split; [exact Hget | exact Hret].
Defined.

(** C2 as the claim words it fails: at a level other than SP_SOL_SOCKET
    the request is not forwarded; the pattern has its answer ready and is
    never asked, by [sp_sock_setopt] and by [sp_sock_getopt] alike. *)
Lemma sp_sock_opt_other_level_not_forwarded :
  2 <> 1
  /\ pattern_calls (fst (run 4 (sp_sock_setopt 92 1 8 1000 2 5 600 4) [0])) = []
  /\ pattern_calls (fst (run 4 (sp_sock_getopt 92 1 8 1000 2 5 600 4) [0])) = []
  /\ run 4 (sp_sock_setopt 92 1 8 1000 2 5 600 4) [0] =
     ([Call (Aio_lock 1008) tt; Call (Aio_unlock 1008) tt], Returned (-92)).
Proof.
  split; [discriminate|]. repeat split; vm_compute; reflexivity.
Qed.

Lemma sp_sock_send_protocol_witness :
  0 < 11 /\ (2%nat = 0%nat \/ Z.land 0 1 = 0) /\ (3 * 2 + 5 <= 11)%nat
  /\ -22 <> 0 /\ -22 <> - 11
  /\ (0%nat = 0%nat \/ Z.land 1 1 = 0) /\ ~ Z.land 1 1 = 0
  /\ run 11 (sp_sock_send 11 1 8 40 1000 500 16 0) [-11; 0; -11; 0; 0] =
     ([Call (Aio_lock 1008) tt;
       Call (V_send 1000 500 16) (-11); Call (Cond_wait 1040 1008 (-1)) 0;
       Call (V_send 1000 500 16) (-11); Call (Cond_wait 1040 1008 (-1)) 0;
       Call (V_send 1000 500 16) 0; Call (Aio_unlock 1008) tt], Returned 0)
  /\ snd (run 11 (sp_sock_send 11 1 8 40 1000 500 16 0) [-11; 0; -11; 0; -22])
     = Returned (-22)
  /\ run 11 (sp_sock_send 11 1 8 40 1000 500 16 0) [-11; 0; -11; 0; -11] =
     ([Call (Aio_lock 1008) tt;
       Call (V_send 1000 500 16) (-11); Call (Cond_wait 1040 1008 (-1)) 0;
       Call (V_send 1000 500 16) (-11); Call (Cond_wait 1040 1008 (-1)) 0;
       Call (V_send 1000 500 16) (-11);
       Pending (Cond_wait 1040 1008 (-1))], Suspended)
  /\ run 5 (sp_sock_send 11 1 8 40 1000 500 16 1) [-11] =
     ([Call (Aio_lock 1008) tt; Call (V_send 1000 500 16) (-11);
       Call (Aio_unlock 1008) tt], Returned (-11)).
Proof.
  assert (Hpos : 0 < 11) by lia.
  assert (Hblocking : 2%nat = 0%nat \/ Z.land 0 1 = 0) by (right; reflexivity).
  assert (Hfuel : (3 * 2 + 5 <= 11)%nat) by lia.
  assert (Herr : -22 <> 0) by discriminate.
  assert (Herr' : -22 <> - 11) by discriminate.
  assert (Hfirst : 0%nat = 0%nat \/ Z.land 1 1 = 0) by (left; reflexivity).
  assert (Hnb : ~ Z.land 1 1 = 0) by discriminate.
  assert (Hfuel' : (3 * 0 + 5 <= 5)%nat) by lia.
  destruct (sp_sock_send_protocol 11 1 8 40 Hpos 1000 500 16 0 2 [] 11
              Hblocking Hfuel) as (Hok & Hfail & _ & Hwait).
  destruct (sp_sock_send_protocol 11 1 8 40 Hpos 1000 500 16 1 0 [] 5
              Hfirst Hfuel') as (_ & _ & Hagain & _).
  destruct (Hwait eq_refl) as (Hsusp & _ & _).
  split; [exact Hpos|]. split; [exact Hblocking|]. split; [exact Hfuel|].
  split; [exact Herr|]. split; [exact Herr'|]. split; [exact Hfirst|].
  split; [exact Hnb|]. split; [exact Hok|].
  split; [exact (f_equal snd (Hfail (-22) Herr Herr'))|].
  split; [exact Hsusp | exact (Hagain Hnb)].
Defined.


Lemma sp_sock_lock_balance_witness :
  run 11 (sp_sock_send 11 1 8 40 1000 500 16 0) [-11; 0; -11; 0; 0] =
    ([Call (Aio_lock 1008) tt;
      Call (V_send 1000 500 16) (-11); Call (Cond_wait 1040 1008 (-1)) 0;
      Call (V_send 1000 500 16) (-11); Call (Cond_wait 1040 1008 (-1)) 0;
      Call (V_send 1000 500 16) 0; Call (Aio_unlock 1008) tt], Returned 0)
  /\ balanced 1008
       [Call (Aio_lock 1008) tt;
        Call (V_send 1000 500 16) (-11); Call (Cond_wait 1040 1008 (-1)) 0;
        Call (V_send 1000 500 16) (-11); Call (Cond_wait 1040 1008 (-1)) 0;
        Call (V_send 1000 500 16) 0; Call (Aio_unlock 1008) tt].
Proof.
  assert (Hrun :
    run 11 (sp_sock_send 11 1 8 40 1000 500 16 0) [-11; 0; -11; 0; 0] =
    ([Call (Aio_lock 1008) tt;
      Call (V_send 1000 500 16) (-11); Call (Cond_wait 1040 1008 (-1)) 0;
      Call (V_send 1000 500 16) (-11); Call (Cond_wait 1040 1008 (-1)) 0;
      Call (V_send 1000 500 16) 0; Call (Aio_unlock 1008) tt], Returned 0))
    by reflexivity.
  split; [exact Hrun|].
  destruct (sp_sock_lock_balance 11 92 1 1 8 40 1000 11 [-11; 0; -11; 0; 0]
              [Call (Aio_lock 1008) tt;
               Call (V_send 1000 500 16) (-11); Call (Cond_wait 1040 1008 (-1)) 0;
               Call (V_send 1000 500 16) (-11); Call (Cond_wait 1040 1008 (-1)) 0;
               Call (V_send 1000 500 16) 0; Call (Aio_unlock 1008) tt] 0)
    as (_ & Hloop).
  destruct (Hloop 500 16 0) as (Hsend & _).
  exact (Hsend Hrun).
Defined.

(** ** More of the socket core *)

Section RetryMore.

Variables EAGAIN SP_DONTWAIT : Z.
Variables (hook wait : sockE Z) (unlock : entry) (flags : Z).

Let loop := retry_run EAGAIN SP_DONTWAIT hook wait unlock flags.
Let round := [Call hook (- EAGAIN); Call wait 0].

Lemma finish_returned fuel r log z :
  finish unlock fuel r = (log, Returned z) -> log = [unlock] /\ z = r.
Proof.
  destruct fuel as [|[|fuel]]; intros H; inversion H. auto.
Qed.

(** A run of the loop that returns went through turns of "would block,
    woken up" only, and returns what the hook said last. *)
Lemma retry_run_shape : forall fuel script log r,
  loop fuel script = (log, Returned r) ->
  exists n,
    log = concat (repeat round n) ++ [Call hook r; unlock]
    /\ (n = 0%nat \/ Z.land flags SP_DONTWAIT = 0).
Proof.
  unfold loop, round.
  induction fuel as [fuel IH] using lt_wf_ind. intros script log r.
  destruct fuel as [|n]; [discriminate|].
  destruct script as [|rc s]; [discriminate|].
  cbn [retry_run]. intros H.
  apply logged_inv in H. destruct H as (log1 & -> & H). revert H.
  destruct (rc =? 0) eqn:Hzero.
  { intros H. apply finish_returned in H. destruct H as [-> ->].
    apply Z.eqb_eq in Hzero. subst rc. exists 0%nat. auto. }
  destruct (rc =? - EAGAIN) eqn:Hagain; cbn [negb].
  2:{ intros H. apply finish_returned in H. destruct H as [-> ->].
      exists 0%nat. auto. }
  apply Z.eqb_eq in Hagain. subst rc.
  destruct (Z.land flags SP_DONTWAIT =? 0) eqn:Hflag; cbn [negb].
  2:{ intros H. apply finish_returned in H. destruct H as [-> ->].
      exists 0%nat. auto. }
  apply Z.eqb_eq in Hflag.
  destruct n as [|n1]; [discriminate|].
  destruct s as [|w s']; [discriminate|].
  intros H. apply logged_inv in H. destruct H as (log2 & -> & H).
  destruct n1 as [|n2]; [discriminate|].
  destruct (w =? 0) eqn:Hw; [|discriminate].
  apply Z.eqb_eq in Hw. subst w.
  apply IH in H; [|lia]. destruct H as (k & -> & _).
  exists (S k). split; [reflexivity | right; assumption].
Qed.

(** With SP_DONTWAIT the loop has one turn and returns what the hook
    said. *)
Lemma retry_run_dontwait rc rest fuel :
  Z.land flags SP_DONTWAIT <> 0 ->
  loop (S (S (S fuel))) (rc :: rest) = ([Call hook rc; unlock], Returned rc).
Proof.
  intros Hflag. apply Z.eqb_neq in Hflag. unfold loop.
  cbn [retry_run]. rewrite Hflag. cbn [negb finish].
  destruct (rc =? 0) eqn:Hzero.
  { apply Z.eqb_eq in Hzero. subst rc. reflexivity. }
  destruct (rc =? - EAGAIN) eqn:Hagain; cbn [negb]; [|reflexivity].
  apply Z.eqb_eq in Hagain. subst rc. reflexivity.
Qed.

Lemma retry_run_dontwait_no_wait :
  Z.land flags SP_DONTWAIT <> 0 ->
  is_wait (Call hook 0) = false -> is_wait unlock = false ->
  forall fuel script, existsb is_wait (fst (loop fuel script)) = false.
Proof.
  intros Hflag Hhook Hunlock fuel script.
  apply Z.eqb_neq in Hflag. unfold loop.
  assert (Hpending : is_wait (Pending hook) = false) by exact Hhook.
  assert (Hcall : forall rc, is_wait (Call hook rc) = false)
    by (intros rc; exact Hhook).
  assert (Hfinish : forall n r, existsb is_wait (fst (finish unlock n r)) = false).
  { intros n r.
    destruct n as [|[|n]]; cbn [finish fst existsb]; rewrite ?Hunlock;
      reflexivity. }
  destruct fuel as [|n]; [reflexivity|].
  destruct script as [|rc s].
  { cbn [retry_run fst existsb]. rewrite Hpending. reflexivity. }
  cbn [retry_run logged fst existsb]. rewrite Hcall, Hflag. cbn [negb orb].
  destruct (rc =? 0); [apply Hfinish|].
  destruct (negb (rc =? - EAGAIN)); apply Hfinish.
Qed.

(** A wait that fails aborts the loop on the spot. *)
Lemma retry_run_wait_failure w rest fuel :
  0 < EAGAIN -> Z.land flags SP_DONTWAIT = 0 -> w <> 0 ->
  loop (S (S (S fuel))) (- EAGAIN :: w :: rest) =
  ([Call hook (- EAGAIN); Call wait w], Aborted).
Proof.
  intros Hpos Hflag Hw. apply Z.eqb_neq in Hw. unfold loop.
  cbn [retry_run].
  replace (- EAGAIN =? 0) with false by (symmetry; apply Z.eqb_neq; lia).
  rewrite Z.eqb_refl, Hflag, Hw. reflexivity.
Qed.

End RetryMore.

Section SockMore.

Variables EAGAIN ENOPROTOOPT SP_SOL_SOCKET SP_DONTWAIT : Z.
Variables aio_off cond_off inevent_off outevent_off : Z.

Local Abbreviation term := (sp_sock_term aio_off cond_off).
Local Abbreviation setopt := (sp_sock_setopt ENOPROTOOPT SP_SOL_SOCKET aio_off).
Local Abbreviation getopt := (sp_sock_getopt ENOPROTOOPT SP_SOL_SOCKET aio_off).
Local Abbreviation send := (sp_sock_send EAGAIN SP_DONTWAIT aio_off cond_off).
Local Abbreviation recv := (sp_sock_recv EAGAIN SP_DONTWAIT aio_off cond_off).
Local Abbreviation notify_in := (sp_sock_in aio_off inevent_off).
Local Abbreviation notify_out := (sp_sock_out aio_off outevent_off).
Local Abbreviation event_cb :=
  (sp_sock_event aio_off cond_off inevent_off outevent_off).
Local Abbreviation timeout_cb := (sp_sock_timeout aio_off).
Local Abbreviation turns :=
  (fun self hook => retry_run EAGAIN SP_DONTWAIT hook
                      (Cond_wait (self + cond_off) (self + aio_off) (-1))
                      (Call (Aio_unlock (self + aio_off)) tt)).

Lemma run_send_rounds self buf len flags n fuel tail :
  0 < EAGAIN -> n = 0%nat \/ Z.land flags SP_DONTWAIT = 0 ->
  run (S (3 * n + fuel)) (send self buf len flags)
    (concat (repeat [- EAGAIN; 0] n) ++ tail) =
  ((Call (Aio_lock (self + aio_off)) tt ::
      concat (repeat [Call (V_send self buf len) (- EAGAIN);
                      Call (Cond_wait (self + cond_off) (self + aio_off) (-1)) 0]
                n))
     ++ fst (turns self (V_send self buf len) flags fuel tail),
   snd (turns self (V_send self buf len) flags fuel tail)).
Proof.
  intros Hpos Hn. rewrite run_send.
  rewrite (retry_run_rounds EAGAIN SP_DONTWAIT aio_off cond_off self flags
             (V_send self buf len) Hpos n fuel tail Hn).
  reflexivity.
Qed.

Lemma run_recv_rounds self buf len flags n fuel tail :
  0 < EAGAIN -> n = 0%nat \/ Z.land flags SP_DONTWAIT = 0 ->
  run (S (3 * n + fuel)) (recv self buf len flags)
    (concat (repeat [- EAGAIN; 0] n) ++ tail) =
  ((Call (Aio_lock (self + aio_off)) tt ::
      concat (repeat [Call (V_recv self buf len) (- EAGAIN);
                      Call (Cond_wait (self + cond_off) (self + aio_off) (-1)) 0]
                n))
     ++ fst (turns self (V_recv self buf len) flags fuel tail),
   snd (turns self (V_recv self buf len) flags fuel tail)).
Proof.
  intros Hpos Hn. rewrite run_recv.
  rewrite (retry_run_rounds EAGAIN SP_DONTWAIT aio_off cond_off self flags
             (V_recv self buf len) Hpos n fuel tail Hn).
  reflexivity.
Qed.

(** X1: the blocking-retry protocol of [sp_sock_recv].  After [n] turns in
    which the receive hook said -EAGAIN and the wait came back (none for a
    caller with SP_DONTWAIT): an answer 0 is returned as 0 and any other
    answer than -EAGAIN as it is, after the unlock; -EAGAIN with
    SP_DONTWAIT is returned at once, with no wait; -EAGAIN without it
    suspends the caller in a wait with timeout -1, and a caller without
    SP_DONTWAIT never gets -EAGAIN back. *)
Theorem sp_sock_recv_protocol :
  0 < EAGAIN ->
  forall self buf len flags n rest fuel,
  let aio := self + aio_off in
  let lock := Call (Aio_lock aio) tt in
  let unlock := Call (Aio_unlock aio) tt in
  let hook := V_recv self buf len in
  let wait := Cond_wait (self + cond_off) aio (-1) in
  let blocking := Z.land flags SP_DONTWAIT = 0 in
  let script := concat (repeat [- EAGAIN; 0] n) in
  let log := lock :: concat (repeat [Call hook (- EAGAIN); Call wait 0] n) in
  n = 0%nat \/ blocking ->
  (3 * n + 5 <= fuel)%nat ->
  run fuel (recv self buf len flags) (script ++ 0 :: rest) =
    (log ++ [Call hook 0; unlock], Returned 0)
  /\ (forall rc, rc <> 0 -> rc <> - EAGAIN ->
      run fuel (recv self buf len flags) (script ++ rc :: rest) =
        (log ++ [Call hook rc; unlock], Returned rc))
  /\ (~ blocking ->
      run fuel (recv self buf len flags) (- EAGAIN :: rest) =
        ([lock; Call hook (- EAGAIN); unlock], Returned (- EAGAIN)))
  /\ (blocking ->
      run fuel (recv self buf len flags) (script ++ [- EAGAIN]) =
        (log ++ [Call hook (- EAGAIN); Pending wait], Suspended)
      /\ forall fuel' script',
           snd (run fuel' (recv self buf len flags) script') <>
           Returned (- EAGAIN)).
Proof.
  intros Hpos self buf len flags n rest fuel. cbv zeta. intros Hn Hfuel.
  assert (Hz : (- EAGAIN =? 0) = false) by (apply Z.eqb_neq; lia).
  repeat apply conj.
  - apply (run_at_least (S (3 * n + 4))); [|discriminate|lia].
    rewrite run_recv_rounds by assumption. reflexivity.
  - intros rc Hrc Hagain.
    apply Z.eqb_neq in Hrc. apply Z.eqb_neq in Hagain.
    apply (run_at_least (S (3 * n + 4))); [|discriminate|lia].
    rewrite run_recv_rounds by assumption.
    cbn [retry_run]. rewrite Hrc, Hagain. reflexivity.
  - intros Hnb.
    apply (run_at_least 4%nat); [|discriminate|lia].
    rewrite run_recv.
    rewrite (retry_run_dontwait EAGAIN SP_DONTWAIT _ _ _ flags (- EAGAIN)
               rest 0 Hnb).
    reflexivity.
  - intros Hb. split.
    + apply (run_at_least (S (3 * n + 4))); [|discriminate|lia].
      rewrite run_recv_rounds by assumption.
      cbn [retry_run]. rewrite Hz, Z.eqb_refl, Hb. reflexivity.
    + intros fuel' script'.
      destruct fuel' as [|fuel']; [discriminate|].
      rewrite run_recv. cbn [logged snd].
      apply (retry_run_never_eagain EAGAIN SP_DONTWAIT aio_off cond_off);
        assumption.
Qed.

(** X2: when [sp_cond_wait] fails (gives another result than 0) inside a
    blocking [sp_sock_send] or [sp_sock_recv], the call aborts right after
    the wait: it does not call the hook again, does not unlock and does not
    return. *)
Theorem sp_sock_wait_failure_aborts :
  0 < EAGAIN ->
  forall self buf len flags n w rest fuel,
  let aio := self + aio_off in
  let wait := Cond_wait (self + cond_off) aio (-1) in
  let script := concat (repeat [- EAGAIN; 0] n) ++ - EAGAIN :: w :: rest in
  let log hook :=
    Call (Aio_lock aio) tt ::
    concat (repeat [Call hook (- EAGAIN); Call wait 0] n)
    ++ [Call hook (- EAGAIN); Call wait w] in
  Z.land flags SP_DONTWAIT = 0 -> w <> 0 ->
  (3 * n + 4 <= fuel)%nat ->
  run fuel (send self buf len flags) script =
    (log (V_send self buf len), Aborted)
  /\ run fuel (recv self buf len flags) script =
    (log (V_recv self buf len), Aborted).
Proof.
  intros Hpos self buf len flags n w rest fuel. cbv zeta.
  intros Hflag Hw Hfuel. split.
  - apply (run_at_least (S (3 * n + 3))); [|discriminate|lia].
    rewrite run_send_rounds by (assumption || (right; assumption)).
    rewrite retry_run_wait_failure by assumption. reflexivity.
  - apply (run_at_least (S (3 * n + 3))); [|discriminate|lia].
    rewrite run_recv_rounds by (assumption || (right; assumption)).
    rewrite retry_run_wait_failure by assumption. reflexivity.
Qed.

(** X3: every run of [sp_sock_send] or [sp_sock_recv] that returns has
    this shape: the lock, then some turns in which the hook said -EAGAIN
    and the wait gave 0 (only without SP_DONTWAIT), then one last call of
    the hook and the unlock; and the value returned is the last answer of
    the hook. *)
Theorem sp_sock_returning_run_shape :
  forall self buf len flags fuel script log r,
  let aio := self + aio_off in
  let wait := Cond_wait (self + cond_off) aio (-1) in
  let shape hook :=
    exists n,
      log = Call (Aio_lock aio) tt ::
            concat (repeat [Call hook (- EAGAIN); Call wait 0] n)
            ++ [Call hook r; Call (Aio_unlock aio) tt]
      /\ (n = 0%nat \/ Z.land flags SP_DONTWAIT = 0) in
  (run fuel (send self buf len flags) script = (log, Returned r) ->
   shape (V_send self buf len))
  /\ (run fuel (recv self buf len flags) script = (log, Returned r) ->
   shape (V_recv self buf len)).
Proof.
  intros self buf len flags fuel script log r. cbv zeta. split; intros H.
  - destruct fuel as [|fuel]; [discriminate|].
    rewrite run_send in H. apply logged_inv in H.
    destruct H as (log' & -> & H).
    apply retry_run_shape in H. destruct H as (n & -> & Hn).
    exists n. split; [reflexivity | assumption].
  - destruct fuel as [|fuel]; [discriminate|].
    rewrite run_recv in H. apply logged_inv in H.
    destruct H as (log' & -> & H).
    apply retry_run_shape in H. destruct H as (n & -> & Hn).
    exists n. split; [reflexivity | assumption].
Qed.

(** X4: with SP_DONTWAIT set, [sp_sock_send] and [sp_sock_recv] make one
    attempt: they call the hook once and return its answer, whatever it is,
    and at no step of any run do they wait on the condition variable. *)
Theorem sp_sock_dontwait_one_attempt :
  forall self buf len flags,
  Z.land flags SP_DONTWAIT <> 0 ->
  let lock := Call (Aio_lock (self + aio_off)) tt in
  let unlock := Call (Aio_unlock (self + aio_off)) tt in
  (forall rc rest fuel, (4 <= fuel)%nat ->
     run fuel (send self buf len flags) (rc :: rest) =
       ([lock; Call (V_send self buf len) rc; unlock], Returned rc)
     /\ run fuel (recv self buf len flags) (rc :: rest) =
       ([lock; Call (V_recv self buf len) rc; unlock], Returned rc))
  /\ (forall fuel script,
     existsb is_wait (fst (run fuel (send self buf len flags) script)) = false
     /\ existsb is_wait (fst (run fuel (recv self buf len flags) script)) = false).
Proof.
  intros self buf len flags Hflag. cbv zeta. split.
  - intros rc rest fuel Hfuel. split.
    + apply (run_at_least 4%nat); [|discriminate|lia].
      rewrite run_send, retry_run_dontwait by assumption. reflexivity.
    + apply (run_at_least 4%nat); [|discriminate|lia].
      rewrite run_recv, retry_run_dontwait by assumption. reflexivity.
  - intros fuel script. split.
    + destruct fuel as [|fuel]; [reflexivity|].
      rewrite run_send. cbn [logged fst existsb is_wait orb].
      apply retry_run_dontwait_no_wait; [assumption|reflexivity|reflexivity].
    + destruct fuel as [|fuel]; [reflexivity|].
      rewrite run_recv. cbn [logged fst existsb is_wait orb].
      apply retry_run_dontwait_no_wait; [assumption|reflexivity|reflexivity].
Qed.

(** *** Options, once more *)

(** X5: [sp_sock_getopt] has the control structure of [sp_sock_setopt]:
    at every level, with every answer of the hook and at every step of the
    run, its log is the log of the [setopt] with the [getopt] hook in the
    place of the [setopt] hook, and the outcome is the same. *)
Theorem sp_sock_getopt_like_setopt :
  forall self level option optval optvallen fuel script,
  run fuel (getopt self level option optval optvallen) script =
  relabel_opt (run fuel (setopt self level option optval optvallen) script).
Proof.
  intros self level option optval optvallen fuel script.
  unfold sp_sock_setopt, sp_sock_getopt.
  destruct (level =? SP_SOL_SOCKET);
    destruct fuel as [|[|[|[|fuel]]]]; destruct script as [|rc rest];
    run_step; try reflexivity;
    destruct (rc =? - ENOPROTOOPT); cbn [negb]; run_step; reflexivity.
Qed.

(** X6: [sp_sock_setopt] and [sp_sock_getopt] never wait and never abort;
    they call the hook of the pattern at most once; and as soon as the
    pattern answers they return, with the answer of the hook or with
    -ENOPROTOOPT. *)
Theorem sp_sock_opt_returns :
  forall self level option optval optvallen script fuel,
  (4 <= fuel)%nat ->
  let set := run fuel (setopt self level option optval optvallen) script in
  let get := run fuel (getopt self level option optval optvallen) script in
  existsb is_wait (fst set) = false /\ existsb is_wait (fst get) = false
  /\ (length (pattern_calls (fst set)) <= 1)%nat
  /\ (length (pattern_calls (fst get)) <= 1)%nat
  /\ snd set <> Aborted /\ snd get <> Aborted
  /\ (forall rc rest, script = rc :: rest ->
      (snd set = Returned rc \/ snd set = Returned (- ENOPROTOOPT))
      /\ (snd get = Returned rc \/ snd get = Returned (- ENOPROTOOPT))).
Proof.
  intros self level option optval optvallen script fuel Hfuel. cbv zeta.
  destruct (Z.eq_dec level SP_SOL_SOCKET) as [->|Hlevel].
  - destruct script as [|rc rest].
    + rewrite run_setopt_no_answer, run_getopt_no_answer by lia.
      repeat apply conj; try reflexivity; cbn; try lia; try discriminate.
    + rewrite run_setopt_consulted, run_getopt_consulted by assumption.
      repeat apply conj; try reflexivity; cbn; try lia; try discriminate.
      intros rc' rest' Heq. inversion Heq; subst.
      destruct (rc' =? - ENOPROTOOPT); auto.
  - rewrite run_setopt_other_level, run_getopt_other_level
      by (assumption || lia).
    repeat apply conj; try reflexivity; cbn; try lia; try discriminate.
    intros rc rest _. auto.
Qed.

(** *** The mutex, at every step *)

Lemma mutex_prefix aio : forall log more held,
  mutex aio held (log ++ more) <> None -> mutex aio held log <> None.
Proof.
  induction log as [|c log IH]; intros more held H; [discriminate|].
  cbn [app mutex] in *.
  destruct (mutex_step aio held c) as [held'|]; [|assumption].
  eapply IH. eassumption.
Qed.

Lemma mutex_less_fuel {R} aio held (t : itree sockE R) script fuel fuel' :
  (fuel <= fuel')%nat ->
  mutex aio held (fst (run fuel' t script)) <> None ->
  mutex aio held (fst (run fuel t script)) <> None.
Proof.
  intros Hle H. destruct (run_prefix fuel fuel' t script Hle) as [more Hmore].
  rewrite Hmore in H. eapply mutex_prefix. eassumption.
Qed.

Lemma retry_run_mutex d self buf len flags : forall fuel script,
  mutex (self + aio_off) true
    (fst (turns self (nb_hook d self buf len) flags fuel script)) <> None.
Proof.
  assert (Hfinish : forall n r,
    mutex (self + aio_off) true
      (fst (finish (Call (Aio_unlock (self + aio_off)) tt) n r)) <> None).
  { intros n r. destruct n as [|[|n]]; cbn; rewrite ?Z.eqb_refl; discriminate. }
  induction fuel as [fuel IH] using lt_wf_ind. intros script.
  destruct fuel as [|n]; [discriminate|].
  destruct script as [|rc s]; [destruct d; discriminate|].
  cbn [retry_run logged fst mutex].
  replace (mutex_step (self + aio_off) true (Call (nb_hook d self buf len) rc))
    with (Some true) by (destruct d; reflexivity).
  destruct (rc =? 0); [apply Hfinish|].
  destruct (negb (rc =? - EAGAIN)); [apply Hfinish|].
  destruct (negb (Z.land flags SP_DONTWAIT =? 0)); [apply Hfinish|].
  destruct n as [|n1]; [discriminate|].
  destruct s as [|w s'].
  { cbn. rewrite Z.eqb_refl. discriminate. }
  cbn [logged fst mutex mutex_step]. rewrite Z.eqb_refl.
  destruct n1 as [|n2]; [discriminate|].
  destruct (w =? 0); [|discriminate].
  apply IH. lia.
Qed.

(** X7: at no step of any run do [sp_sock_setopt], [sp_sock_getopt],
    [sp_sock_send] and [sp_sock_recv] misuse the mutex of the dispatcher:
    entered with the mutex free, they never lock it while they hold it,
    never unlock it while it is free, and never wait on the condition
    variable without holding it. *)
Theorem sp_sock_mutex_never_misused : forall self fuel script,
  let aio := self + aio_off in
  (forall level option optval optvallen,
     mutex aio false
       (fst (run fuel (setopt self level option optval optvallen) script))
     <> None
     /\ mutex aio false
       (fst (run fuel (getopt self level option optval optvallen) script))
     <> None)
  /\ (forall buf len flags,
     mutex aio false (fst (run fuel (send self buf len flags) script)) <> None
     /\ mutex aio false (fst (run fuel (recv self buf len flags) script))
        <> None).
Proof.
  intros self fuel script. cbv zeta. split.
  - intros level option optval optvallen. split.
    + apply (mutex_less_fuel _ _ _ _ fuel (fuel + 4)); [lia|].
      destruct (run_setopt_cases ENOPROTOOPT SP_SOL_SOCKET aio_off
                  self level option optval optvallen script
                  (fuel + 4)) as [H|[H|[rc H]]]; [lia| | |];
        rewrite H; cbn; rewrite ?Z.eqb_refl; discriminate.
    + apply (mutex_less_fuel _ _ _ _ fuel (fuel + 4)); [lia|].
      destruct (run_getopt_cases ENOPROTOOPT SP_SOL_SOCKET aio_off
                  self level option optval optvallen script
                  (fuel + 4)) as [H|[H|[rc H]]]; [lia| | |];
        rewrite H; cbn; rewrite ?Z.eqb_refl; discriminate.
  - intros buf len flags. split.
    + destruct fuel as [|fuel]; [discriminate|].
      rewrite run_send. cbn [logged fst mutex mutex_step].
      rewrite Z.eqb_refl. apply (retry_run_mutex Sending).
    + destruct fuel as [|fuel]; [discriminate|].
      rewrite run_recv. cbn [logged fst mutex mutex_step].
      rewrite Z.eqb_refl. apply (retry_run_mutex Receiving).
Qed.

Lemma existsb_prefix {A} (f : A -> bool) log more :
  existsb f (log ++ more) = false -> existsb f log = false.
Proof.
  rewrite existsb_app. intros H. apply orb_false_iff in H. tauto.
Qed.

Lemma may_block_less_fuel {R} (t : itree sockE R) script fuel fuel' :
  (fuel <= fuel')%nat ->
  existsb may_block (fst (run fuel' t script)) = false ->
  existsb may_block (fst (run fuel t script)) = false.
Proof.
  intros Hle H. destruct (run_prefix fuel fuel' t script Hle) as [more Hmore].
  rewrite Hmore in H. eapply existsb_prefix. eassumption.
Qed.

Lemma run_event_no_answer self tag hndl fuel :
  tag = SP_SOCK_EVENT_IN \/ tag = SP_SOCK_EVENT_OUT ->
  existsb may_block (fst (run (S fuel) (event_cb self tag hndl) [])) = false.
Proof.
  intros [-> | ->]; reflexivity.
Qed.

(** X8: the other entry points never touch the mutex of the dispatcher
    and never wait: at no step of any run do [sp_sock_term], [sp_sock_add],
    [sp_sock_rm], [sp_sock_in], [sp_sock_out] and the three callbacks of the
    dispatcher lock, unlock or wait.  In particular the termination hook of
    the pattern runs without the critical section being taken by
    [sp_sock_term]. *)
Theorem sp_sock_entry_points_without_mutex : forall self arg fuel script,
  let quiet {R} (t : itree sockE R) :=
    existsb may_block (fst (run fuel t script)) = false in
  quiet (term self)
  /\ quiet (sp_sock_add self arg) /\ quiet (sp_sock_rm self arg)
  /\ quiet (notify_in self arg) /\ quiet (notify_out self arg)
  /\ (forall tag, quiet (sp_sock_io self tag arg))
  /\ (forall tag, quiet (event_cb self tag arg))
  /\ quiet (timeout_cb self arg).
Proof.
  intros self arg fuel script. cbv zeta. repeat apply conj.
  - apply (may_block_less_fuel _ _ fuel (fuel + 4)); [lia|].
    rewrite (run_mono 4) by (first [lia | simpl; discriminate]). reflexivity.
  - apply (may_block_less_fuel _ _ fuel (fuel + 2)); [lia|].
    rewrite (run_mono 2) by (first [lia | destruct script; discriminate]).
    destruct script; reflexivity.
  - apply (may_block_less_fuel _ _ fuel (fuel + 2)); [lia|].
    rewrite (run_mono 2) by (first [lia | simpl; discriminate]). reflexivity.
  - apply (may_block_less_fuel _ _ fuel (fuel + 2)); [lia|].
    rewrite (run_mono 2) by (first [lia | simpl; discriminate]). reflexivity.
  - apply (may_block_less_fuel _ _ fuel (fuel + 2)); [lia|].
    rewrite (run_mono 2) by (first [lia | simpl; discriminate]). reflexivity.
  - intros tag. apply (may_block_less_fuel _ _ fuel (fuel + 1)); [lia|].
    rewrite (run_mono 1) by (first [lia | simpl; discriminate]). reflexivity.
  - intros tag. apply (may_block_less_fuel _ _ fuel (fuel + 3)); [lia|].
    destruct (Z.eq_dec tag SP_SOCK_EVENT_IN) as [->|Hin];
      [|destruct (Z.eq_dec tag SP_SOCK_EVENT_OUT) as [->|Hout]].
    + destruct script as [|rc rest].
      * replace (fuel + 3)%nat with (S (fuel + 2)) by lia.
        apply run_event_no_answer. left. reflexivity.
      * rewrite (run_event_in aio_off cond_off inevent_off outevent_off)
          by lia.
        destruct (rc =? 1); reflexivity.
    + destruct script as [|rc rest].
      * replace (fuel + 3)%nat with (S (fuel + 2)) by lia.
        apply run_event_no_answer. right. reflexivity.
      * rewrite (run_event_out aio_off cond_off inevent_off outevent_off)
          by lia.
        destruct (rc =? 1); reflexivity.
    + apply Z.eqb_neq in Hin. apply Z.eqb_neq in Hout.
      unfold sp_sock_event. rewrite Hin, Hout.
      replace (fuel + 3)%nat with (S (fuel + 2)) by lia. reflexivity.
  - apply (may_block_less_fuel _ _ fuel (fuel + 2)); [lia|].
    rewrite (run_mono 2) by (first [lia | simpl; discriminate]). reflexivity.
Qed.

End SockMore.

(** ** Construction, the handle and the timers *)

Lemma exec_mono {R} clobber fuel : forall fuel' (t : itree baseE R) m,
  (fuel <= fuel')%nat -> snd (exec clobber fuel t m) <> None ->
  exec clobber fuel' t m = exec clobber fuel t m.
Proof.
  induction fuel as [|n IH]; intros k t m Hle Hend.
  - exfalso. apply Hend. reflexivity.
  - destruct k as [|k]; [lia|]. simpl in *.
    destruct (observe t) as [r|t'|X e c]; [reflexivity| |].
    + apply IH; [lia|assumption].
    + destruct (perform clobber e m) as [x m'].
      specialize (IH k (c x) m').
      destruct (exec clobber n (c x) m') as [[log m''] r].
      rewrite IH; [reflexivity|lia|assumption].
Qed.

Lemma store_same m addr val : store m addr val addr = val.
Proof. unfold store. rewrite Z.eqb_refl. reflexivity. Qed.

Lemma store_other m addr val a : a <> addr -> store m addr val a = m a.
Proof.
  intros H. unfold store. apply Z.eqb_neq in H. rewrite H. reflexivity.
Qed.

Section SockBaseFacts.

Variables aio_off cond_off inevent_off outevent_off : Z.
Variables vfptr_off fd_off : Z.

Local Abbreviation init :=
  (sp_sockbase_init aio_off cond_off inevent_off outevent_off vfptr_off fd_off).
Local Abbreviation table :=
  (sp_sock_aio_vfptr aio_off cond_off inevent_off outevent_off).

Lemma exec_init clobber self vfptr fd m fuel :
  (5 <= fuel)%nat ->
  exec clobber fuel (init self vfptr fd) m =
  ([Did (Store (self + vfptr_off) vfptr);
    Did (Aio_init (self + aio_off) table);
    Did (Cond_init (self + cond_off));
    Did (Store (self + fd_off) fd)],
   store (clobber (self + cond_off)
            (clobber (self + aio_off) (store m (self + vfptr_off) vfptr)))
     (self + fd_off) fd,
   Some tt).
Proof.
  intros Hfuel. rewrite (exec_mono clobber 5) by (first [lia | discriminate]).
  reflexivity.
Qed.

Lemma exec_fd clobber self m fuel :
  (2 <= fuel)%nat ->
  exec clobber fuel (sp_sock_fd fd_off self) m =
  ([Did (Load (self + fd_off))], m, Some (m (self + fd_off))).
Proof.
  intros Hfuel. rewrite (exec_mono clobber 2) by (first [lia | discriminate]).
  reflexivity.
Qed.

(** X9: [sp_sock_fd] after [sp_sockbase_init] gives the handle that was
    passed to the initialisation, whatever the initialisation of the
    dispatcher and of the condition variable does to the memory, and leaves
    the memory as it is.  The vtable of the pattern is still in its field
    when those two initialisations and the handle do not write there. *)
Theorem sp_sock_fd_after_init : forall clobber self vfptr fd m fuel fuel',
  (5 <= fuel)%nat -> (2 <= fuel')%nat ->
  let made := exec clobber fuel (init self vfptr fd) m in
  let after := snd (fst made) in
  snd made = Some tt
  /\ exec clobber fuel' (sp_sock_fd fd_off self) after =
       ([Did (Load (self + fd_off))], after, Some fd)
  /\ (vfptr_off <> fd_off ->
      (forall obj m0, clobber obj m0 (self + vfptr_off) = m0 (self + vfptr_off)) ->
      after (self + vfptr_off) = vfptr).
Proof.
  intros clobber self vfptr fd m fuel fuel' Hfuel Hfuel'. cbv zeta.
  rewrite exec_init by assumption. cbn [fst snd].
  split; [reflexivity|]. split.
  - rewrite exec_fd by assumption. rewrite store_same. reflexivity.
  - intros Hfields Hframe.
    rewrite store_other by lia. rewrite !Hframe. apply store_same.
Qed.

(** X10: [sp_sock_term] takes the socket down in the reverse of the order
    in which [sp_sockbase_init] set it up: the dispatcher is initialised
    before the condition variable, and the condition variable is terminated
    before the dispatcher. *)
Theorem sp_sock_term_reverses_init :
  forall clobber self vfptr fd m script fuel fuel',
  (5 <= fuel)%nat -> (4 <= fuel')%nat ->
  let set_up := initialised (fst (fst (exec clobber fuel (init self vfptr fd) m))) in
  let taken_down :=
    terminated (fst (run fuel' (sp_sock_term aio_off cond_off self) script)) in
  set_up = [self + aio_off; self + cond_off]
  /\ taken_down = rev set_up.
Proof.
  intros clobber self vfptr fd m script fuel fuel' Hfuel Hfuel'. cbv zeta.
  rewrite exec_init by assumption.
  rewrite (run_mono 4) by (first [lia | simpl; discriminate]).
  split; reflexivity.
Qed.

(** X11: an event posted by [sp_sock_in] or [sp_sock_out] comes back to the
    right pipe.  Delivered through the table of callbacks that
    [sp_sockbase_init] registered with the dispatcher, with the dispatcher,
    the tag and the handle of the post, it calls the [in] hook (the [out]
    hook) of the socket that posted it on the pipe that was notified; it
    aborts only when the hook answers a negative number. *)
Theorem sp_sock_posted_event_delivery :
  forall clobber m self vfptr fd pipe rc rest fuel,
  (3 <= fuel)%nat ->
  exists callbacks tag_in hndl_in tag_out hndl_out,
    registered (fst (fst (exec clobber 5 (init self vfptr fd) m))) =
      [(self + aio_off, callbacks)]
    /\ posted (fst (run 2 (sp_sock_in aio_off inevent_off self pipe) [])) =
      [(self + aio_off, tag_in, hndl_in)]
    /\ posted (fst (run 2 (sp_sock_out aio_off outevent_off self pipe) [])) =
      [(self + aio_off, tag_out, hndl_out)]
    /\ run fuel (on_event callbacks (self + aio_off) tag_in hndl_in)
         (rc :: rest) =
       (Call (V_in self pipe) rc ::
          (if rc =? 1 then [Call (Cond_post (self + cond_off)) tt] else []),
        if 0 <=? rc then Returned tt else Aborted)
    /\ run fuel (on_event callbacks (self + aio_off) tag_out hndl_out)
         (rc :: rest) =
       (Call (V_out self pipe) rc ::
          (if rc =? 1 then [Call (Cond_post (self + cond_off)) tt] else []),
        if 0 <=? rc then Returned tt else Aborted).
Proof.
  intros clobber m self vfptr fd pipe rc rest fuel Hfuel.
  exists table, SP_SOCK_EVENT_IN, (pipe + inevent_off),
    SP_SOCK_EVENT_OUT, (pipe + outevent_off).
  rewrite exec_init by lia.
  split; [reflexivity|]. split; [reflexivity|]. split; [reflexivity|].
  cbn [on_event sp_sock_aio_vfptr].
  rewrite run_event_in, run_event_out by assumption.
  rewrite !sp_cont_field. split; reflexivity.
Qed.

(** X12: a timer armed with [sp_sockbase_add_timer] comes back to the
    pattern.  It is armed on the dispatcher of the socket; fired through
    the table of callbacks that [sp_sockbase_init] registered, with that
    dispatcher and the handle of the timer, it calls the timeout hook of the
    same socket with the same handle, once, and returns.
    [sp_sockbase_rm_timer] disarms on the same dispatcher. *)
Theorem sp_sock_timer_delivery :
  forall clobber m m' self vfptr fd timeout hndl script fuel,
  (2 <= fuel)%nat ->
  exists callbacks,
    registered (fst (fst (exec clobber 5 (init self vfptr fd) m))) =
      [(self + aio_off, callbacks)]
    /\ armed (fst (fst (exec clobber fuel
                         (sp_sockbase_add_timer aio_off self timeout hndl) m')))
       = [(self + aio_off, hndl)]
    /\ run fuel (on_timeout callbacks (self + aio_off) hndl) script =
       ([Call (V_timeout self hndl) tt], Returned tt)
    /\ fst (fst (exec clobber fuel (sp_sockbase_rm_timer aio_off self hndl) m'))
       = [Did (Aio_rm_timer (self + aio_off) hndl)].
Proof.
  intros clobber m m' self vfptr fd timeout hndl script fuel Hfuel.
  exists table. rewrite exec_init by lia.
  split; [reflexivity|].
  rewrite !(exec_mono clobber 2 fuel) by (first [lia | discriminate]).
  split; [reflexivity|]. split; [|reflexivity].
  cbn [on_timeout sp_sock_aio_vfptr].
  rewrite (run_mono 2) by (first [lia | simpl; discriminate]).
  unfold sp_sock_timeout. rewrite sp_cont_field. reflexivity.
Qed.

End SockBaseFacts.

(** ** The further theorems at concrete inputs

    The constants as above; the vtable pointer of the socket at offset 0
    and its handle at offset 48; a memory of zeros; a dispatcher and a
    condition variable that leave a mark at address 2000 when they are
    handed an object. *)

Lemma sp_sock_recv_protocol_witness :
  0 < 11 /\ (1%nat = 0%nat \/ Z.land 0 1 = 0) /\ (3 * 1 + 5 <= 8)%nat
  /\ -22 <> 0 /\ -22 <> - 11
  /\ (0%nat = 0%nat \/ Z.land 1 1 = 0) /\ ~ Z.land 1 1 = 0
  /\ run 8 (sp_sock_recv 11 1 8 40 1000 500 16 0) [-11; 0; 0] =
     ([Call (Aio_lock 1008) tt;
       Call (V_recv 1000 500 16) (-11); Call (Cond_wait 1040 1008 (-1)) 0;
       Call (V_recv 1000 500 16) 0; Call (Aio_unlock 1008) tt], Returned 0)
  /\ snd (run 8 (sp_sock_recv 11 1 8 40 1000 500 16 0) [-11; 0; -22]) =
     Returned (-22)
  /\ snd (run 8 (sp_sock_recv 11 1 8 40 1000 500 16 0) [-11; 0; -11]) =
     Suspended
  /\ run 5 (sp_sock_recv 11 1 8 40 1000 500 16 1) [-11] =
     ([Call (Aio_lock 1008) tt; Call (V_recv 1000 500 16) (-11);
       Call (Aio_unlock 1008) tt], Returned (-11)).
Proof.
  assert (Hpos : 0 < 11) by lia.
  assert (Hblocking : 1%nat = 0%nat \/ Z.land 0 1 = 0) by (right; reflexivity).
  assert (Hfuel : (3 * 1 + 5 <= 8)%nat) by lia.
  assert (Herr : -22 <> 0) by discriminate.
  assert (Herr' : -22 <> - 11) by discriminate.
  assert (Hfirst : 0%nat = 0%nat \/ Z.land 1 1 = 0) by (left; reflexivity).
  assert (Hnb : ~ Z.land 1 1 = 0) by discriminate.
  assert (Hfuel' : (3 * 0 + 5 <= 5)%nat) by lia.
  destruct (sp_sock_recv_protocol 11 1 8 40 Hpos 1000 500 16 0 1 [] 8
              Hblocking Hfuel) as (Hok & Hfail & _ & Hwait).
  destruct (sp_sock_recv_protocol 11 1 8 40 Hpos 1000 500 16 1 0 [] 5
              Hfirst Hfuel') as (_ & _ & Hagain & _).
  destruct (Hwait eq_refl) as (Hsusp & _).
  split; [exact Hpos|]. split; [exact Hblocking|]. split; [exact Hfuel|].
  split; [exact Herr|]. split; [exact Herr'|]. split; [exact Hfirst|].
  split; [exact Hnb|]. split; [exact Hok|].
  split; [exact (f_equal snd (Hfail (-22) Herr Herr'))|].
  split; [exact (f_equal snd Hsusp) | exact (Hagain Hnb)].
Defined.

Lemma sp_sock_wait_failure_aborts_witness :
  0 < 11 /\ Z.land 0 1 = 0 /\ 4 <> 0 /\ (3 * 1 + 4 <= 7)%nat
  /\ run 7 (sp_sock_send 11 1 8 40 1000 500 16 0) [-11; 0; -11; 4; 0] =
     ([Call (Aio_lock 1008) tt;
       Call (V_send 1000 500 16) (-11); Call (Cond_wait 1040 1008 (-1)) 0;
       Call (V_send 1000 500 16) (-11); Call (Cond_wait 1040 1008 (-1)) 4],
      Aborted)
  /\ snd (run 7 (sp_sock_recv 11 1 8 40 1000 500 16 0) [-11; 0; -11; 4; 0]) =
     Aborted.
Proof.
  assert (Hpos : 0 < 11) by lia.
  assert (Hflag : Z.land 0 1 = 0) by reflexivity.
  assert (Hw : 4 <> 0) by discriminate.
  assert (Hfuel : (3 * 1 + 4 <= 7)%nat) by lia.
  destruct (sp_sock_wait_failure_aborts 11 1 8 40 Hpos 1000 500 16 0 1 4 [0] 7
              Hflag Hw Hfuel) as (Hsend & Hrecv).
  split; [exact Hpos|]. split; [exact Hflag|]. split; [exact Hw|].
  split; [exact Hfuel|]. split; [exact Hsend | exact (f_equal snd Hrecv)].
Defined.

Lemma sp_sock_returning_run_shape_witness :
  run 8 (sp_sock_recv 11 1 8 40 1000 500 16 0) [-11; 0; 7] =
    ([Call (Aio_lock 1008) tt;
      Call (V_recv 1000 500 16) (-11); Call (Cond_wait 1040 1008 (-1)) 0;
      Call (V_recv 1000 500 16) 7; Call (Aio_unlock 1008) tt], Returned 7)
  /\ exists n,
       [Call (Aio_lock 1008) tt;
        Call (V_recv 1000 500 16) (-11); Call (Cond_wait 1040 1008 (-1)) 0;
        Call (V_recv 1000 500 16) 7; Call (Aio_unlock 1008) tt] =
       Call (Aio_lock 1008) tt ::
       concat (repeat [Call (V_recv 1000 500 16) (- 11);
                       Call (Cond_wait 1040 1008 (-1)) 0] n)
       ++ [Call (V_recv 1000 500 16) 7; Call (Aio_unlock 1008) tt]
       /\ (n = 0%nat \/ Z.land 0 1 = 0).
Proof.
  assert (Hrun :
    run 8 (sp_sock_recv 11 1 8 40 1000 500 16 0) [-11; 0; 7] =
    ([Call (Aio_lock 1008) tt;
      Call (V_recv 1000 500 16) (-11); Call (Cond_wait 1040 1008 (-1)) 0;
      Call (V_recv 1000 500 16) 7; Call (Aio_unlock 1008) tt], Returned 7))
    by reflexivity.
  split; [exact Hrun|].
  exact (proj2 (sp_sock_returning_run_shape 11 1 8 40 1000 500 16 0 8
                  [-11; 0; 7] _ 7) Hrun).
Defined.

Lemma sp_sock_dontwait_one_attempt_witness :
  Z.land 3 1 <> 0 /\ (4 <= 4)%nat
  /\ run 4 (sp_sock_send 11 1 8 40 1000 500 16 3) [-11; 0] =
     ([Call (Aio_lock 1008) tt; Call (V_send 1000 500 16) (-11);
       Call (Aio_unlock 1008) tt], Returned (-11))
  /\ run 4 (sp_sock_recv 11 1 8 40 1000 500 16 3) [5] =
     ([Call (Aio_lock 1008) tt; Call (V_recv 1000 500 16) 5;
       Call (Aio_unlock 1008) tt], Returned 5)
  /\ existsb is_wait
       (fst (run 9 (sp_sock_send 11 1 8 40 1000 500 16 3) [-11; 0; 0])) = false.
Proof.
  assert (Hflag : Z.land 3 1 <> 0) by discriminate.
  assert (Hfuel : (4 <= 4)%nat) by lia.
  destruct (sp_sock_dontwait_one_attempt 11 1 8 40 1000 500 16 3 Hflag)
    as (Honce & Hquiet).
  split; [exact Hflag|]. split; [exact Hfuel|].
  split; [exact (proj1 (Honce (-11) [0] 4%nat Hfuel))|].
  split; [exact (proj2 (Honce 5 [] 4%nat Hfuel))|].
  exact (proj1 (Hquiet 9%nat [-11; 0; 0])).
Defined.

Lemma sp_sock_opt_returns_witness :
  (4 <= 4)%nat /\ [-22] = [-22]
  /\ existsb is_wait
       (fst (run 4 (sp_sock_setopt 92 1 8 1000 1 5 600 4) [-22])) = false
  /\ snd (run 4 (sp_sock_getopt 92 1 8 1000 1 5 600 4) [-22]) <> Aborted
  /\ (snd (run 4 (sp_sock_setopt 92 1 8 1000 1 5 600 4) [-22]) = Returned (-22)
      \/ snd (run 4 (sp_sock_setopt 92 1 8 1000 1 5 600 4) [-22]) =
         Returned (- 92)).
Proof.
  assert (Hfuel : (4 <= 4)%nat) by lia.
  destruct (sp_sock_opt_returns 92 1 8 1000 1 5 600 4 [-22] 4 Hfuel)
    as (Hset & _ & _ & _ & _ & Hget & Hret).
  split; [exact Hfuel|]. split; [reflexivity|]. split; [exact Hset|].
  split; [exact Hget|].
  exact (proj1 (Hret (-22) [] eq_refl)).
Defined.

Lemma sp_sock_mutex_never_misused_witness :
  mutex 1008 false
    (fst (run 6 (sp_sock_send 11 1 8 40 1000 500 16 0) [-11; 0; -11])) <> None
  /\ mutex 1008 false
    (fst (run 2 (sp_sock_getopt 92 1 8 1000 1 5 600 4) [])) <> None.
Proof.
  destruct (sp_sock_mutex_never_misused 11 92 1 1 8 40 1000 6 [-11; 0; -11])
    as (_ & Hloop).
  destruct (sp_sock_mutex_never_misused 11 92 1 1 8 40 1000 2 [])
    as (Hopt & _).
  split; [exact (proj1 (Hloop 500 16 0)) | exact (proj2 (Hopt 1 5 600 4))].
Defined.

Lemma sp_sock_fd_after_init_witness :
  (5 <= 5)%nat /\ (2 <= 2)%nat /\ 0 <> 48
  /\ (forall obj m0, store m0 2000 obj (1000 + 0) = m0 (1000 + 0))
  /\ snd (exec (fun obj m => store m 2000 obj) 2
            (sp_sock_fd 48 1000)
            (snd (fst (exec (fun obj m => store m 2000 obj) 5
                         (sp_sockbase_init 8 40 16 24 0 48 1000 700 3)
                         (fun _ => 0))))) = Some 3
  /\ snd (fst (exec (fun obj m => store m 2000 obj) 5
                 (sp_sockbase_init 8 40 16 24 0 48 1000 700 3)
                 (fun _ => 0))) (1000 + 0) = 700.
Proof.
  assert (Hinit : (5 <= 5)%nat) by lia.
  assert (Hfd : (2 <= 2)%nat) by lia.
  assert (Hfields : 0 <> 48) by discriminate.
  assert (Hframe : forall obj m0, store m0 2000 obj (1000 + 0) = m0 (1000 + 0))
    by (intros obj m0; reflexivity).
  destruct (sp_sock_fd_after_init 8 40 16 24 0 48
              (fun obj m => store m 2000 obj) 1000 700 3 (fun _ => 0) 5 2
              Hinit Hfd) as (_ & Hhandle & Hvfptr).
  split; [exact Hinit|]. split; [exact Hfd|]. split; [exact Hfields|].
  split; [exact Hframe|].
  split; [exact (f_equal snd Hhandle) | exact (Hvfptr Hfields Hframe)].
Defined.

Lemma sp_sock_term_reverses_init_witness :
  (5 <= 5)%nat /\ (4 <= 4)%nat
  /\ terminated (fst (run 4 (sp_sock_term 8 40 1000) [])) =
     rev (initialised
            (fst (fst (exec (fun obj m => store m 2000 obj) 5
                         (sp_sockbase_init 8 40 16 24 0 48 1000 700 3)
                         (fun _ => 0))))).
Proof.
  assert (Hinit : (5 <= 5)%nat) by lia.
  assert (Hterm : (4 <= 4)%nat) by lia.
  split; [exact Hinit|]. split; [exact Hterm|].
  exact (proj2 (sp_sock_term_reverses_init 8 40 16 24 0 48
                  (fun obj m => store m 2000 obj) 1000 700 3 (fun _ => 0) []
                  5 4 Hinit Hterm)).
Defined.

Lemma sp_sock_posted_event_delivery_witness :
  (3 <= 3)%nat
  /\ exists callbacks,
       registered
         (fst (fst (exec (fun obj m => store m 2000 obj) 5
                      (sp_sockbase_init 8 40 16 24 0 48 1000 700 3)
                      (fun _ => 0)))) = [(1000 + 8, callbacks)]
       /\ run 3 (on_event callbacks (1000 + 8) 1 5016) [1] =
          ([Call (V_in 1000 5000) 1; Call (Cond_post 1040) tt], Returned tt).
Proof.
  assert (Hfuel : (3 <= 3)%nat) by lia.
  split; [exact Hfuel|].
  destruct (sp_sock_posted_event_delivery 8 40 16 24 0 48
              (fun obj m => store m 2000 obj) (fun _ => 0) 1000 700 3 5000 1 []
              3 Hfuel)
    as (callbacks & tag_in & hndl_in & tag_out & hndl_out
        & Hreg & Hin & _ & Hrun & _).
  exists callbacks. split; [exact Hreg|].
  injection Hin as Htag Hhndl. rewrite <- Htag, <- Hhndl in Hrun.
  exact Hrun.
Defined.

Lemma sp_sock_timer_delivery_witness :
  (2 <= 2)%nat
  /\ exists callbacks,
       registered
         (fst (fst (exec (fun obj m => store m 2000 obj) 5
                      (sp_sockbase_init 8 40 16 24 0 48 1000 700 3)
                      (fun _ => 0)))) = [(1000 + 8, callbacks)]
       /\ run 2 (on_timeout callbacks (1000 + 8) 9000) [] =
          ([Call (V_timeout 1000 9000) tt], Returned tt).
Proof.
  assert (Hfuel : (2 <= 2)%nat) by lia.
  split; [exact Hfuel|].
  destruct (sp_sock_timer_delivery 8 40 16 24 0 48
              (fun obj m => store m 2000 obj) (fun _ => 0) (fun _ => 0)
              1000 700 3 250 9000 [] 2 Hfuel)
    as (callbacks & Hreg & _ & Hrun & _).
  exists callbacks. split; [exact Hreg | exact Hrun].
Defined.
